(** * radar-vesting-app: the analytical core of [server.js]

    A shallow embedding of the price lookup ([getPrice]), the backtest
    ([backtest]), the DropsTab normalizer ([fetchRealUnlocks]) and the
    request handler of the HTTP server, followed by the properties the
    specification states about them.

    JavaScript numbers are IEEE 754 binary64 values: they are modelled by
    Rocq's primitive floats, whose operations are the same binary64
    operations.  JavaScript values that come out of [JSON.parse] are modelled
    by the type [Value]; code that may throw is in the error monad [Result].
    The fixtures loaded at start-up ([data/unlocks.json],
    [data/price_series.json]) are not part of the sources and are parameters
    of the development, typed as the data model describes them. *)

From Stdlib Require Import ZArith Floats Uint63 Ascii.
From stdpp Require Import gmap strings list.

Local Open Scope string_scope.
Set Warnings "-register-all,-inexact-float".

(** ** JavaScript values and errors *)

(** What [JSON.parse] can produce, plus [undefined] (the value of a missing
    property).  An object is the list of its own properties. *)
Inductive Value : Type :=
| VUndefined
| VNull
| VBool (b : bool)
| VNum (x : float)
| VStr (s : string)
| VArr (elems : list Value)
| VObj (props : list (string * Value)).

(** The three kinds of exception the server can meet. *)
Inductive JSError : Type :=
| SyntaxError (message : string)
| TypeError (message : string)
| Error (message : string).

(** [e.message] *)
Definition message (e : JSError) : string :=
  match e with
  | SyntaxError m | TypeError m | Error m => m
  end.

(** Code that may throw: the error monad. *)
Definition Result (A : Type) : Type := JSError + A.

Definition ret {A} (a : A) : Result A := inr a.
Definition throw {A} (e : JSError) : Result A := inl e.
Definition bind {A B} (c : Result A) (k : A -> Result B) : Result B :=
  match c with
  | inl e => inl e
  | inr a => k a
  end.

Notation "'let*' x ':=' c 'in' k" := (bind c (fun x => k))
  (at level 10, x name, c at level 100, k at level 200).

(** [xs.map(f)] for a callback that may throw: the first exception aborts
    the whole map. *)
Fixpoint mapM {A B} (f : A -> Result B) (xs : list A) : Result (list B) :=
  match xs with
  | [] => ret []
  | x :: xs' =>
      let* y := f x in
      let* ys := mapM f xs' in
      ret (y :: ys)
  end.

(** [xs.forEach(f)] for a callback that updates the variables [acc] of the
    enclosing function and may throw. *)
Fixpoint forEach {A S} (f : S -> A -> Result S) (xs : list A) (acc : S)
    : Result S :=
  match xs with
  | [] => ret acc
  | x :: xs' =>
      let* acc' := f acc x in
      forEach f xs' acc'
  end.

(** The state of a promise once nothing more can happen to it: resolved,
    rejected, or pending for ever. *)
Inductive Promise (A : Type) : Type :=
| Resolved (a : A)
| Rejected (e : JSError)
| Pending.
Arguments Resolved {A} a.
Arguments Rejected {A} e.
Arguments Pending {A}.

(** ** The run-time library

    Built-ins of the JavaScript engine and of Node that the server calls and
    whose definition is not part of the repository.  Every theorem below
    holds for all of them. *)
Class Runtime : Type := {
  (** [Date.parse(s)]: milliseconds since the epoch, or NaN. *)
  Date_parse : string -> float;
  (** [JSON.parse(s)]: a value, or the message of the [SyntaxError]. *)
  JSON_parse : string -> string + Value;
  (** [Number(s)] on a string. *)
  StringToNumber : string -> float;
  (** [String(x)] on a number. *)
  NumberToString : float -> string;
  (** Text of the [TypeError] raised by reading property [k] of [null] or
      [undefined]. *)
  msg_null_property : Value -> string -> string;
  (** Text of the [TypeError] raised by calling something that is not a
      function. *)
  msg_not_a_function : string -> string;
  (** Text of the [TypeError] raised when an object has no usable
      [toString] or [valueOf]. *)
  msg_cannot_convert : string;
  (** [https.request] checks the headers before it returns: the message of
      the [TypeError] it throws for this value of the [Authorization] header,
      [None] when it accepts the value. *)
  header_error : string -> option string;
}.

(** ** The data model *)

(** An element of a price series: [{timestamp, price}]. *)
Record PricePoint : Type := {
  p_timestamp : string;
  p_price : float;
}.

(** An element of [unlocks.json]: [{token, timestamp, amountUsd, shortable}]. *)
Record UnlockEvent : Type := {
  u_token : string;
  u_timestamp : string;
  u_amountUsd : float;
  u_shortable : bool;
}.

(** An object built by the normalizer from a provider record.  The provider's
    JSON is not validated, so [token] and [amountUsd] hold whatever value the
    record carried. *)
Record MappedEvent : Type := {
  m_token : Value;
  m_timestamp : string;
  m_amountUsd : Value;
  m_shortable : bool;
}.

(** The module-level constants of [server.js].  [priceSeries] holds the own
    properties of the object read from [price_series.json]. *)
Class Globals : Type := {
  unlocks : list UnlockEvent;
  priceSeries : gmap string (list PricePoint);
  (** [process.env.DROPSTAB_API_KEY]: [undefined] or a string. *)
  DROPSTAB_API_KEY : option string;
}.

(** The object returned by [backtest]. *)
Record BacktestResult : Type := {
  trades : float;
  winRate : float;
  avgRoi : float;
}.

(** What a route hands to [JSON.stringify]; the serialization itself is not
    modelled. *)
Inductive Body : Type :=
| BodyUnlocks (events : list UnlockEvent)
| BodyMapped (events : list MappedEvent)
| BodyTokens (tokens : list string)
| BodyBacktest (result : BacktestResult)
| BodyError (error : string).

Record Response : Type := {
  statusCode : Z;
  body : Body;
}.

(** What happens to the HTTPS request once it has been sent: the ['error']
    event of the request, or a response whose body arrives in chunks before
    its ['end'] event, or neither of the two (the provider never answers, or
    the response is cut before its end). *)
Inductive Transport : Type :=
| NetError (err : string)
| NetResponse (chunks : list string)
| NetHang.

(** A property found on [Object.prototype]: a built-in function, given by
    its [length], or the prototype object itself (which has no [length]). *)
Inductive Builtin : Type :=
| BuiltinFunction (length : nat)
| PrototypeObject.

(** [Object.prototype[k]]: the properties every plain object inherits. *)
Definition Object_prototype (k : string) : option Builtin :=
  if String.eqb k "constructor" then Some (BuiltinFunction 1)
  else if String.eqb k "hasOwnProperty" then Some (BuiltinFunction 1)
  else if String.eqb k "isPrototypeOf" then Some (BuiltinFunction 1)
  else if String.eqb k "propertyIsEnumerable" then Some (BuiltinFunction 1)
  else if String.eqb k "toLocaleString" then Some (BuiltinFunction 0)
  else if String.eqb k "toString" then Some (BuiltinFunction 0)
  else if String.eqb k "valueOf" then Some (BuiltinFunction 0)
  else if String.eqb k "__defineGetter__" then Some (BuiltinFunction 2)
  else if String.eqb k "__defineSetter__" then Some (BuiltinFunction 2)
  else if String.eqb k "__lookupGetter__" then Some (BuiltinFunction 1)
  else if String.eqb k "__lookupSetter__" then Some (BuiltinFunction 1)
  else if String.eqb k "__proto__" then Some PrototypeObject
  else None.

(** ** Conversions of the language *)

Section Conversions.
Context {rt : Runtime}.

(** Truthiness of a number: everything but [0], [-0] and NaN. *)
Definition truthy_number (x : float) : bool :=
  negb (PrimFloat.eqb x 0 || PrimFloat.is_nan x).

(** ToBoolean *)
Definition ToBoolean (v : Value) : bool :=
  match v with
  | VUndefined | VNull => false
  | VBool b => b
  | VNum x => truthy_number x
  | VStr s => negb (String.eqb s "")
  | VArr _ | VObj _ => true
  end.

(** [xs.join(",")] on strings. *)
Fixpoint join_comma (xs : list string) : string :=
  match xs with
  | [] => ""
  | [x] => x
  | x :: xs' => x ++ "," ++ join_comma xs'
  end.

(** Whether an object has an own property [k]. *)
Definition has_own (props : list (string * Value)) (k : string) : bool :=
  existsb (fun kv => String.eqb (fst kv) k) props.

(** ToString.  An array is the join of its elements, [null] and [undefined]
    elements giving the empty string.  A plain object is
    ["[object Object]"], through the inherited [toString]; an own property
    named [toString] hides the inherited one, and as a parsed value is never
    a function the conversion then finds no method that returns a primitive
    ([valueOf], own or inherited, does not either) and throws. *)
Fixpoint ToString (v : Value) : Result string :=
  match v with
  | VUndefined => ret "undefined"
  | VNull => ret "null"
  | VBool true => ret "true"
  | VBool false => ret "false"
  | VNum x => ret (NumberToString x)
  | VStr s => ret s
  | VArr elems =>
      let* parts :=
        (fix go (es : list Value) : Result (list string) :=
           match es with
           | [] => ret []
           | e :: es' =>
               let* s := match e with
                         | VUndefined | VNull => ret ""
                         | _ => ToString e
                         end in
               let* ss := go es' in
               ret (s :: ss)
           end) elems in
      ret (join_comma parts)
  | VObj props =>
      if has_own props "toString"
      then throw (TypeError msg_cannot_convert)
      else ret "[object Object]"
  end.

(** ToNumber: [Number(v)].  An array or object is first converted to a
    primitive: [valueOf] gives back the object, so the string of [toString]
    is what is converted. *)
Definition ToNumber (v : Value) : Result float :=
  match v with
  | VUndefined => ret PrimFloat.nan
  | VNull => ret 0%float
  | VBool true => ret 1%float
  | VBool false => ret 0%float
  | VNum x => ret x
  | VStr s => ret (StringToNumber s)
  | VArr _ | VObj _ =>
      let* s := ToString v in
      ret (StringToNumber s)
  end.

(** [a || b] on values. *)
Definition or_else (a b : Value) : Value :=
  if ToBoolean a then a else b.

(** [x || 0] on numbers. *)
Definition or_zero (x : float) : float :=
  if truthy_number x then x else 0%float.

(** [s === v] where [s] is a string: true only for the same string. *)
Definition strict_eq_string (s : string) (v : Value) : bool :=
  match v with
  | VStr t => String.eqb s t
  | _ => false
  end.

(** Own property [k] of an object, [undefined] when there is none. *)
Fixpoint own_property (props : list (string * Value)) (k : string) : Value :=
  match props with
  | [] => VUndefined
  | (k', v) :: rest => if String.eqb k' k then v else own_property rest k
  end.

(** [v.k] for the property names the server reads from parsed values
    ([data], [coin], [date], [amount], [token], [hoursBefore],
    [hoursAfter]): none of them is defined on a prototype, so only an object
    can have one, and reading any property of [null] or [undefined]
    throws. *)
Definition get_prop (v : Value) (k : string) : Result Value :=
  match v with
  | VUndefined | VNull => throw (TypeError (msg_null_property v k))
  | VObj props => ret (own_property props k)
  | VBool _ | VNum _ | VStr _ | VArr _ => ret VUndefined
  end.

End Conversions.

(** ** The server *)

(** What [priceSeries[key]] evaluates to: an own series, or a property
    inherited from [Object.prototype], or [undefined]. *)
Inductive Found : Type :=
| FoundSeries (series : list PricePoint)
| FoundBuiltin (b : Builtin)
| NotFound.

Section Server.
Context {rt : Runtime} {G : Globals}.

(** [priceSeries[key]]: own properties first, then the prototype. *)
Definition priceSeries_get (key : string) : Found :=
  match priceSeries !! key with
  | Some series => FoundSeries series
  | None =>
      match Object_prototype key with
      | Some b => FoundBuiltin b
      | None => NotFound
      end
  end.

(** The [for] loop of [getPrice] over an array: [price] is the variable of
    that name, [undefined] until a sample has been accepted; the loop leaves
    at the first sample for which [pTs <= ts] is false. *)
Fixpoint getPrice_loop (series : list PricePoint) (ts : float)
    (price : option float) : option float :=
  match series with
  | [] => price
  | p :: rest =>
      let pTs := Date_parse (p_timestamp p) in
      if PrimFloat.leb pTs ts then getPrice_loop rest ts (Some (p_price p))
      else price
  end.

(** The key under which [priceSeries[token]] looks. *)
Definition ToPropertyKey (token : Value) : Result string := ToString token.

(** [getPrice(token, ts)]; [None] is [undefined].  An inherited function is
    truthy and has a [length]: when that is 0 the loop does not run, and
    otherwise reading [series[0].timestamp] throws, [series[0]] being
    [undefined].  The inherited [__proto__] has no [length], and the loop
    does not run either. *)
Definition getPrice (token : Value) (ts : float) : Result (option float) :=
  let* key := ToPropertyKey token in
  match priceSeries_get key with
  | NotFound => ret None
  | FoundSeries series => ret (getPrice_loop series ts None)
  | FoundBuiltin (BuiltinFunction 0) => ret None
  | FoundBuiltin (BuiltinFunction (S _)) =>
      throw (TypeError (msg_null_property VUndefined "timestamp"))
  | FoundBuiltin PrototypeObject => ret None
  end.

(** The three counters of [backtest]. *)
Record Totals : Type := {
  t_trades : float;
  t_wins : float;
  t_totalRoi : float;
}.

(** [buyTs] and [sellTs] of an event. *)
Definition buyTs (hoursBefore : float) (ev : UnlockEvent) : float :=
  (Date_parse (u_timestamp ev) - hoursBefore * 3600 * 1000)%float.

Definition sellTs (hoursAfter : float) (ev : UnlockEvent) : float :=
  (Date_parse (u_timestamp ev) + hoursAfter * 3600 * 1000)%float.

(** The callback of [events.forEach]. *)
Definition backtest_step (token : Value) (hoursBefore hoursAfter : float)
    (acc : Totals) (ev : UnlockEvent) : Result Totals :=
  let* buyPrice := getPrice token (buyTs hoursBefore ev) in
  let* sellPrice := getPrice token (sellTs hoursAfter ev) in
  match buyPrice, sellPrice with
  | Some buyPrice, Some sellPrice =>
      let roi := ((sellPrice - buyPrice) / buyPrice)%float in
      ret {| t_totalRoi := (t_totalRoi acc + roi)%float;
             t_trades := (t_trades acc + 1)%float;
             t_wins := if PrimFloat.ltb 0 roi then (t_wins acc + 1)%float
                       else t_wins acc |}
  | _, _ => ret acc
  end.

(** [unlocks.filter((u) => u.token === token)] *)
Definition events_of (token : Value) : list UnlockEvent :=
  List.filter (fun u => strict_eq_string (u_token u) token) unlocks.

(** The counters after [forEach] has run over [events]. *)
Definition backtest_totals (token : Value) (hoursBefore hoursAfter : float)
    (events : list UnlockEvent) : Result Totals :=
  forEach (backtest_step token hoursBefore hoursAfter) events
    {| t_trades := 0; t_wins := 0; t_totalRoi := 0 |}.

(** The two conditional expressions and the returned object. *)
Definition summarize (acc : Totals) : BacktestResult :=
  let avgRoi := if PrimFloat.ltb 0 (t_trades acc)
                then (t_totalRoi acc / t_trades acc)%float else 0%float in
  let winRate := if PrimFloat.ltb 0 (t_trades acc)
                 then (t_wins acc / t_trades acc)%float else 0%float in
  {| trades := t_trades acc; winRate := winRate; avgRoi := avgRoi |}.

(** [backtest(token, hoursBefore, hoursAfter)] *)
Definition backtest (token : Value) (hoursBefore hoursAfter : float)
    : Result BacktestResult :=
  let* acc :=
    backtest_totals token hoursBefore hoursAfter (events_of token) in
  ret (summarize acc).

(** The callback of [data.map]: one provider record to one event. *)
Definition map_event (ev : Value) : Result MappedEvent :=
  let* coin := get_prop ev "coin" in
  let* date := get_prop ev "date" in
  let* day := ToString date in
  let* amount := get_prop ev "amount" in
  ret {| m_token := coin;
         m_timestamp := day ++ "T00:00:00Z";
         m_amountUsd := or_else amount (VNum 0);
         m_shortable := false |}.

(** The body of the [try] block of the ['end'] handler. *)
Definition normalize (body : string) : Result (list MappedEvent) :=
  let* parsed := match JSON_parse body with
                 | inl m => throw (SyntaxError m)
                 | inr v => ret v
                 end in
  let* d := get_prop parsed "data" in
  match or_else d (VArr []) with
  | VArr data => mapM map_event data
  | _ => throw (TypeError (msg_not_a_function "data.map"))
  end.

(** [!DROPSTAB_API_KEY] *)
Definition no_api_key : bool :=
  match DROPSTAB_API_KEY with
  | None => true
  | Some k => String.eqb k ""
  end.

(** The value of the [Authorization] header. *)
Definition authorization : string :=
  "Bearer " ++ default "" DROPSTAB_API_KEY.

(** [fetchRealUnlocks()], given what the network does.  [Resolved None] is
    the promise resolved with [null].  An exception thrown by
    [https.request] is thrown inside the executor of the promise, outside
    any [try]: it rejects the promise. *)
Definition fetchRealUnlocks (net : Transport)
    : Promise (option (list MappedEvent)) :=
  if no_api_key then Resolved None
  else
    match header_error authorization with
    | Some m => Rejected (TypeError m)
    | None =>
        match net with
        | NetError _ => Resolved None
        | NetResponse chunks =>
            match normalize (String.concat "" chunks) with
            | inr mapped => Resolved (Some mapped)
            | inl _ => Resolved None
            end
        | NetHang => Pending
        end
    end.

(** [GET /api/unlocks]: the response written by the [then] callback; a
    promise that is rejected or stays pending never runs it, and nothing is
    written. *)
Definition api_unlocks (net : Transport) : option Response :=
  match fetchRealUnlocks net with
  | Resolved realData =>
      let result :=
        match realData with
        | Some (ev :: evs) => BodyMapped (ev :: evs)
        | Some [] | None => BodyUnlocks unlocks
        end in
      Some {| statusCode := 200; body := result |}
  | Rejected _ | Pending => None
  end.

(** [new Set(xs)]: one more element of the iterable added to a set that
    remembers insertion order. *)
Definition set_add (seen : list string) (x : string) : list string :=
  if bool_decide (x ∈ seen) then seen else seen ++ [x].

(** [Array.from(new Set(xs))] *)
Definition array_from_set (xs : list string) : list string :=
  fold_left set_add xs [].

(** [GET /api/shortable] *)
Definition api_shortable : Response :=
  let tokens :=
    array_from_set (map u_token (List.filter u_shortable unlocks)) in
  {| statusCode := 200; body := BodyTokens tokens |}.

(** The [try] block of [POST /api/backtest]. *)
Definition api_backtest_try (body : string) : Result BacktestResult :=
  let* params := match JSON_parse body with
                 | inl m => throw (SyntaxError m)
                 | inr v => ret v
                 end in
  let* token := get_prop params "token" in
  let* hb := get_prop params "hoursBefore" in
  let* nb := ToNumber hb in
  let hoursBefore := or_zero nb in
  let* ha := get_prop params "hoursAfter" in
  let* na := ToNumber ha in
  let hoursAfter := or_zero na in
  if negb (ToBoolean token) then throw (Error "Token is required")
  else backtest token hoursBefore hoursAfter.

(** [POST /api/backtest], once the request body has arrived in [chunks]. *)
Definition api_backtest (chunks : list string) : Response :=
  match api_backtest_try (String.concat "" chunks) with
  | inr result => {| statusCode := 200; body := BodyBacktest result |}
  | inl e => {| statusCode := 400; body := BodyError (message e) |}
  end.

End Server.

(** ** The token route and the request handler

    The rest of the callback of [http.createServer]: the route
    [GET /api/token/:tok], the static files, and the order in which the
    routes are tried. *)

(** The file system and [path] module of Node, as far as the handler uses
    them. *)
Class Node : Type := {
  (** [__dirname] *)
  dirname : string;
  (** [path.join(a, b, c)] *)
  path_join : string -> string -> string -> string;
  (** [path.extname(p)] *)
  path_extname : string -> string;
  (** [fs.readFile(p, callback)]: the content handed to the callback, [None]
      when it is called with an error. *)
  readFile : string -> option string;
}.

(** The object [GET /api/token/:tok] answers with.  [priceSeries] is what
    [priceSeries[tok] || []] evaluates to. *)
Record TokenDetail : Type := {
  td_token : string;
  td_shortable : bool;
  td_unlocks : list UnlockEvent;
  td_priceSeries : Found;
}.

(** The incoming message: [req.method], [req.url], and the chunks of the
    request body. *)
Record Request : Type := {
  method : string;
  url : string;
  req_chunks : list string;
}.

(** What is passed to [res.end]. *)
Inductive Payload : Type :=
| PNothing
| PJson (b : Body)
| PDetail (d : TokenDetail)
| PText (s : string).

(** The response as written: status, the headers in the order they were set,
    and the payload. *)
Record Reply : Type := {
  r_status : Z;
  r_headers : list (string * string);
  r_payload : Payload;
}.

(** A character of the class [[A-Za-z0-9_-]]. *)
Definition token_char (c : ascii) : bool :=
  let n := nat_of_ascii c in
  (Nat.leb 65 n && Nat.leb n 90) || (Nat.leb 97 n && Nat.leb n 122)
  || (Nat.leb 48 n && Nat.leb n 57) || Nat.eqb n 95 || Nat.eqb n 45.

(** What is left of [s] after the prefix [p], if [s] starts with it. *)
Fixpoint strip_prefix (p s : string) : option string :=
  match p with
  | EmptyString => Some s
  | String a p' =>
      match s with
      | EmptyString => None
      | String b s' => if Ascii.eqb a b then strip_prefix p' s' else None
      end
  end.

(** [req.url.match(/^\/api\/token\/([A-Za-z0-9_-]+)$/)]: the captured group
    [tokenMatch[1]], [None] when the match is [null]. *)
Definition match_token_url (url : string) : option string :=
  match strip_prefix "/api/token/" url with
  | None => None
  | Some tok =>
      if negb (String.eqb tok "")
         && forallb token_char (String.list_ascii_of_string tok)
      then Some tok
      else None
  end.

(** The MIME type chosen from the extension. *)
Definition content_type_of (ext : string) : string :=
  let contentType := "text/html" in
  let contentType :=
    if String.eqb ext ".js" then "text/javascript" else contentType in
  let contentType :=
    if String.eqb ext ".css" then "text/css" else contentType in
  let contentType :=
    if String.eqb ext ".json" then "application/json" else contentType in
  let contentType :=
    if String.eqb ext ".ico" then "image/x-icon" else contentType in
  contentType.

(** The three headers set before any route is tried. *)
Definition cors_headers : list (string * string) :=
  [ ("Access-Control-Allow-Origin", "*");
    ("Access-Control-Allow-Methods", "GET, POST, OPTIONS");
    ("Access-Control-Allow-Headers", "Content-Type") ].

Section Handler.
Context {rt : Runtime} {G : Globals} {node : Node}.

(** [GET /api/token/:tok], for the captured [tok]. *)
Definition api_token (tok : string) : TokenDetail :=
  let tokenEvents :=
    List.filter (fun u => String.eqb (u_token u) tok) unlocks in
  let isShortable := existsb u_shortable tokenEvents in
  let series :=
    match priceSeries_get tok with
    | NotFound => FoundSeries []
    | found => found
    end in
  {| td_token := tok; td_shortable := isShortable;
     td_unlocks := tokenEvents; td_priceSeries := series |}.

(** A reply with [Content-Type: application/json]. *)
Definition json_reply (status : Z) (payload : Payload) : Reply :=
  {| r_status := status;
     r_headers := cors_headers ++ [("Content-Type", "application/json")];
     r_payload := payload |}.

(** The last branch: a file of the [public] folder. *)
Definition serve_static (url : string) : Reply :=
  let filePath :=
    path_join dirname "public"
      (if String.eqb url "/" then "index.html" else url) in
  match readFile filePath with
  | None =>
      {| r_status := 404; r_headers := cors_headers;
         r_payload := PText "Not found" |}
  | Some content =>
      let ext := path_extname filePath in
      {| r_status := 200;
         r_headers := cors_headers ++ [("Content-Type", content_type_of ext)];
         r_payload := PText content |}
  end.

(** The two last branches: [POST /api/backtest], then the static files. *)
Definition backtest_or_static (req : Request) : Reply :=
  if String.eqb (url req) "/api/backtest" && String.eqb (method req) "POST"
  then
    let r := api_backtest (req_chunks req) in
    json_reply (statusCode r) (PJson (body r))
  else serve_static (url req).

(** The callback of [http.createServer]: the reply written for a request,
    given what the provider's network does.  [None]: no reply is written. *)
Definition server (req : Request) (net : Transport) : option Reply :=
  if String.eqb (method req) "OPTIONS" then
    Some {| r_status := 200; r_headers := cors_headers;
            r_payload := PNothing |}
  else if String.eqb (url req) "/api/unlocks" && String.eqb (method req) "GET"
  then
    match api_unlocks net with
    | Some r => Some (json_reply (statusCode r) (PJson (body r)))
    | None => None
    end
  else if String.eqb (url req) "/api/shortable"
          && String.eqb (method req) "GET"
  then
    Some (json_reply (statusCode api_shortable) (PJson (body api_shortable)))
  else
    let tokenMatch := match_token_url (url req) in
    match tokenMatch, String.eqb (method req) "GET" with
    | Some tok, true => Some (json_reply 200 (PDetail (api_token tok)))
    | _, _ => Some (backtest_or_static req)
    end.

End Handler.

(** ** Vocabulary of the properties

    Predicates and reference values the statements below are written with. *)

(** [Number.isFinite] read on the specification of binary64. *)
Definition SFis_finite (a : spec_float) : bool :=
  match a with
  | S754_nan | S754_infinity _ => false
  | S754_zero _ | S754_finite _ _ _ => true
  end.

(** A value that can be converted to a string: not an object with an own
    [toString] property, and not an array with such an element, at any
    depth. *)
Fixpoint convertible (v : Value) : bool :=
  match v with
  | VArr elems => forallb convertible elems
  | VObj props => negb (has_own props "toString")
  | _ => true
  end.

(** [v.k] for a value that is not [null]: the own property of an object,
    [undefined] for anything else. *)
Definition param (v : Value) (k : string) : Value :=
  match v with
  | VObj props => own_property props k
  | _ => VUndefined
  end.

Section Vocabulary.
Context {rt : Runtime} {G : Globals}.

(** The string of an element of an array, as [join] converts it. *)
Definition element_string (e : Value) : Result string :=
  match e with
  | VUndefined | VNull => ret ""
  | _ => ToString e
  end.

(** [pTs <= ts] for a sample. *)
Definition qualifies (ts : float) (p : PricePoint) : bool :=
  PrimFloat.leb (Date_parse (p_timestamp p)) ts.

(** The invariant of the price series: timestamps never decrease from one
    sample to the next. *)
Fixpoint sorted_series (series : list PricePoint) : bool :=
  match series with
  | [] => true
  | p :: rest =>
      match rest with
      | [] => true
      | p' :: _ =>
          PrimFloat.leb (Date_parse (p_timestamp p))
                        (Date_parse (p_timestamp p'))
          && sorted_series rest
      end
  end.

(** The value of [price] after the loop has accepted all of [pre]. *)
Definition tracked (pre : list PricePoint) (price : option float)
    : option float :=
  match last pre with
  | Some p => Some (p_price p)
  | None => price
  end.

(** The result when no trade was counted. *)
Definition no_trades : BacktestResult :=
  {| trades := 0; winRate := 0; avgRoi := 0 |}.

(** An event for which [getPrice] returns no buy price or no sell price. *)
Definition uncovered (token : Value) (hoursBefore hoursAfter : float)
    (ev : UnlockEvent) : bool :=
  match getPrice token (buyTs hoursBefore ev),
        getPrice token (sellTs hoursAfter ev) with
  | inr None, inr _ | inr _, inr None => true
  | _, _ => false
  end.

(** The event built from an element [ev] of [data] whose date converts to
    the string [day]. *)
Definition event_of_record (ev : Value) (day : string) : MappedEvent :=
  {| m_token := param ev "coin";
     m_timestamp := (day ++ "T00:00:00Z")%string;
     m_amountUsd := or_else (param ev "amount") (VNum 0);
     m_shortable := false |}.

(** [e] is the event of the element [ev]. *)
Definition record_event (ev : Value) (e : MappedEvent) : Prop :=
  exists day,
    ToString (param ev "date") = inr day /\ e = event_of_record ev day.

(** An element of [data] no event can be built from: [null], or a record
    whose [date] cannot be converted to a string. *)
Definition record_fails (ev : Value) : bool :=
  match ev with
  | VUndefined | VNull => true
  | _ => negb (convertible (param ev "date"))
  end.

(** A parsed body no sequence of events can be built from: [null], or an
    object whose [data] is a truthy value other than an array, or an array
    with an element no event can be built from. *)
Definition unusable_value (parsed : Value) : bool :=
  match parsed with
  | VUndefined | VNull => true
  | VObj props =>
      match own_property props "data" with
      | VArr data => existsb record_fails data
      | d => ToBoolean d
      end
  | VBool _ | VNum _ | VStr _ | VArr _ => false
  end.

(** A parsed body of the shape the provider documents: an object with an
    array [data]. *)
Definition provider_shaped (parsed : Value) : bool :=
  match parsed with
  | VObj props =>
      match own_property props "data" with
      | VArr _ => true
      | _ => false
      end
  | _ => false
  end.

End Vocabulary.

(** ** A concrete run-time library and concrete fixtures

    Used by the examples at the end of the file: a [Date.parse] for the
    timestamp format of the fixtures, and the built-ins restricted to the
    inputs the examples feed them. *)
Module Sample.

(** An integer as a binary64 number (exact below 2^53). *)
Definition float_of_Z (z : Z) : float :=
  if (z <? 0)%Z then (- PrimFloat.of_uint63 (Uint63.of_Z (- z)))%float
  else PrimFloat.of_uint63 (Uint63.of_Z z).

Definition digit (c : ascii) : option Z :=
  let n := (Z.of_nat (nat_of_ascii c) - 48)%Z in
  if ((0 <=? n) && (n <=? 9))%Z then Some n else None.

(** The decimal number written by a list of digits. *)
Fixpoint number (cs : list ascii) (acc : Z) : option Z :=
  match cs with
  | [] => Some acc
  | c :: cs' =>
      match digit c with
      | Some d => number cs' (10 * acc + d)%Z
      | None => None
      end
  end.

(** Days from 1970-01-01 to the given day of the proleptic Gregorian
    calendar. *)
Definition days_from_civil (y m d : Z) : Z :=
  let y' := (if m <=? 2 then y - 1 else y)%Z in
  let era := (y' / 400)%Z in
  let yoe := (y' - era * 400)%Z in
  let mp := (if m <=? 2 then m + 9 else m - 3)%Z in
  let doy := ((153 * mp + 2) / 5 + d - 1)%Z in
  let doe := (yoe * 365 + yoe / 4 - yoe / 100 + doy)%Z in
  (era * 146097 + doe - 719468)%Z.

Definition in_range (lo x hi : Z) : bool := ((lo <=? x) && (x <=? hi))%Z.

(** [Date.parse] on [YYYY-MM-DDTHH:MM:SSZ], the only format the examples
    use; NaN on any other string. *)
Definition iso_Date_parse (s : string) : float :=
  match String.list_ascii_of_string s with
  | [y1; y2; y3; y4; c1; m1; m2; c2; d1; d2; c3;
     h1; h2; c4; n1; n2; c5; s1; s2; c6] =>
      match number [y1; y2; y3; y4] 0, number [m1; m2] 0, number [d1; d2] 0,
            number [h1; h2] 0, number [n1; n2] 0, number [s1; s2] 0 with
      | Some y, Some m, Some d, Some hh, Some mm, Some ss =>
          if String.eqb (String.string_of_list_ascii [c1; c2; c3; c4; c5; c6]) "--T::Z"
             && in_range 1 m 12 && in_range 1 d 31 && in_range 0 hh 23
             && in_range 0 mm 59 && in_range 0 ss 59
          then float_of_Z
                 ((((days_from_civil y m d * 24 + hh) * 60 + mm) * 60 + ss)
                  * 1000)
          else PrimFloat.nan
      | _, _, _, _, _, _ => PrimFloat.nan
      end
  | _ => PrimFloat.nan
  end.

(** The double quote, and a JSON string literal. *)
Definition dq : string := String (ascii_of_nat 34) EmptyString.
Definition q (s : string) : string := dq ++ s ++ dq.

(** The provider response of the specification's normalizer scenario:
    [{data:[{coin:"BBB", date:"2024-01-01", amount:5000}]}]. *)
Definition provider_body : string :=
  "{" ++ q "data" ++ ":[{" ++ q "coin" ++ ":" ++ q "BBB" ++ ","
      ++ q "date" ++ ":" ++ q "2024-01-01" ++ ","
      ++ q "amount" ++ ":5000}]}".

Definition provider_value : Value :=
  VObj [("data",
         VArr [VObj [("coin", VStr "BBB"); ("date", VStr "2024-01-01");
                     ("amount", VNum 5000)]])].

(** A provider response whose record has an object for a date:
    [{data:[{coin:"BBB", date:{toString:1}}]}]. *)
Definition provider_bad_date_body : string :=
  "{" ++ q "data" ++ ":[{" ++ q "coin" ++ ":" ++ q "BBB" ++ ","
      ++ q "date" ++ ":{" ++ q "toString" ++ ":1}}]}".

Definition provider_bad_date_value : Value :=
  VObj [("data",
         VArr [VObj [("coin", VStr "BBB");
                     ("date", VObj [("toString", VNum 1)])]])].

(** Request bodies of [POST /api/backtest]:
    [{hoursBefore:1}], [{token:"AAA", hoursBefore:"abc"}], [{token:"AAA"}],
    [{token:5}], [{token:"AAA", hoursBefore:true}],
    [{token:"AAA", hoursBefore:{toString:0}}] and [{token:"constructor"}]. *)
Definition body_no_token : string := "{" ++ q "hoursBefore" ++ ":1}".
Definition value_no_token : Value := VObj [("hoursBefore", VNum 1)].

Definition body_bad_hours : string :=
  "{" ++ q "token" ++ ":" ++ q "AAA" ++ "," ++ q "hoursBefore" ++ ":"
      ++ q "abc" ++ "}".
Definition value_bad_hours : Value :=
  VObj [("token", VStr "AAA"); ("hoursBefore", VStr "abc")].

Definition body_token_only : string :=
  "{" ++ q "token" ++ ":" ++ q "AAA" ++ "}".
Definition value_token_only : Value := VObj [("token", VStr "AAA")].

Definition body_numeric_token : string := "{" ++ q "token" ++ ":5}".
Definition value_numeric_token : Value := VObj [("token", VNum 5)].

Definition body_true_hours : string :=
  "{" ++ q "token" ++ ":" ++ q "AAA" ++ "," ++ q "hoursBefore" ++ ":true}".
Definition value_true_hours : Value :=
  VObj [("token", VStr "AAA"); ("hoursBefore", VBool true)].

Definition body_object_hours : string :=
  "{" ++ q "token" ++ ":" ++ q "AAA" ++ "," ++ q "hoursBefore" ++ ":{"
      ++ q "toString" ++ ":0}}".
Definition value_object_hours : Value :=
  VObj [("token", VStr "AAA");
        ("hoursBefore", VObj [("toString", VNum 0)])].

Definition body_constructor : string :=
  "{" ++ q "token" ++ ":" ++ q "constructor" ++ "}".
Definition value_constructor : Value :=
  VObj [("token", VStr "constructor")].

(** [JSON.parse] on the bodies above, on [{}] and on [null]; any other text
    is taken to be malformed. *)
Definition table_JSON_parse (s : string) : string + Value :=
  if String.eqb s provider_body then inr provider_value
  else if String.eqb s provider_bad_date_body
  then inr provider_bad_date_value
  else if String.eqb s body_no_token then inr value_no_token
  else if String.eqb s body_bad_hours then inr value_bad_hours
  else if String.eqb s body_token_only then inr value_token_only
  else if String.eqb s body_numeric_token then inr value_numeric_token
  else if String.eqb s body_true_hours then inr value_true_hours
  else if String.eqb s body_object_hours then inr value_object_hours
  else if String.eqb s body_constructor then inr value_constructor
  else if String.eqb s "{}" then inr (VObj [])
  else if String.eqb s "null" then inr VNull
  else inl "Unexpected token".

(** [Number(s)] on the strings of the examples. *)
Definition table_StringToNumber (s : string) : float :=
  if String.eqb s "" then 0%float
  else if String.eqb s "1" then 1%float
  else PrimFloat.nan.

(** [String(x)] on the numbers of the examples. *)
Definition table_NumberToString (x : float) : string :=
  if PrimFloat.eqb x 0 then "0"
  else if PrimFloat.eqb x 1 then "1"
  else if PrimFloat.eqb x 5000 then "5000"
  else "NaN".

(** The characters Node accepts in the value of a header: the tabulation,
    and every character from the space on except DEL. *)
Definition header_char_ok (c : ascii) : bool :=
  let n := nat_of_ascii c in
  Nat.eqb n 9 || (Nat.leb 32 n && negb (Nat.eqb n 127)).

Definition node_header_error (value : string) : option string :=
  if forallb header_char_ok (String.list_ascii_of_string value) then None
  else Some ("Invalid character in header content [" ++ q "Authorization"
             ++ "]").

#[export] Instance runtime : Runtime := {|
  Date_parse := iso_Date_parse;
  JSON_parse := table_JSON_parse;
  StringToNumber := table_StringToNumber;
  NumberToString := table_NumberToString;
  msg_null_property := fun v k =>
    "Cannot read properties of "
      ++ match v with VNull => "null" | _ => "undefined" end
      ++ " (reading '" ++ k ++ "')";
  msg_not_a_function := fun f => f ++ " is not a function";
  msg_cannot_convert := "Cannot convert object to primitive value";
  header_error := node_header_error;
|}.

End Sample.

(** Fixtures of the specification's backtest scenario: the price series of
    [AAA] is [(t0, 10.0), (t0+1h, 12.0)] and there is one unlock of [AAA] at
    [t0+1h], with [t0] = 2024-01-01T00:00:00Z. *)
Module Scenario.

Definition t0 : string := "2024-01-01T00:00:00Z".
Definition t1 : string := "2024-01-01T01:00:00Z".

Definition series : list PricePoint :=
  [ {| p_timestamp := t0; p_price := 10 |};
    {| p_timestamp := t1; p_price := 12 |} ].

Definition event : UnlockEvent :=
  {| u_token := "AAA"; u_timestamp := t1; u_amountUsd := 1000;
     u_shortable := true |}.

Definition globals : Globals := {|
  unlocks := [event];
  priceSeries := {[ "AAA" := series ]};
  DROPSTAB_API_KEY := None;
|}.

End Scenario.

(** Richer fixtures: a token whose first price is 0, a token that is never
    shortable, a token with two unlocks, and a configured API key. *)
Module Fixtures.

Definition t0 : string := "2024-01-01T00:00:00Z".
Definition t1 : string := "2024-01-01T01:00:00Z".
Definition t2 : string := "2024-01-01T02:00:00Z".

Definition unlock (token timestamp : string) (shortable : bool)
    : UnlockEvent :=
  {| u_token := token; u_timestamp := timestamp; u_amountUsd := 1000;
     u_shortable := shortable |}.

Definition globals : Globals := {|
  unlocks := [ unlock "AAA" t1 true; unlock "ZZZ" t1 false;
               unlock "BBB" t1 false; unlock "AAA" t2 true;
               unlock "CCC" t2 true ];
  priceSeries :=
    {[ "AAA" := [ {| p_timestamp := t0; p_price := 10 |};
                  {| p_timestamp := t1; p_price := 12 |} ];
       "ZZZ" := [ {| p_timestamp := t0; p_price := 0 |};
                  {| p_timestamp := t1; p_price := 5 |} ] ]};
  DROPSTAB_API_KEY := Some "secret";
|}.

End Fixtures.

(** Fixtures with an unlock of a token named [constructor], and an API key
    that holds a line feed. *)
Module Inherited.

Definition globals : Globals := {|
  unlocks := [ Fixtures.unlock "constructor" Fixtures.t1 false;
               Fixtures.unlock "AAA" Fixtures.t1 true ];
  priceSeries := {[ "AAA" := Scenario.series ]};
  DROPSTAB_API_KEY :=
    Some ("secret" ++ String (ascii_of_nat 10) EmptyString);
|}.

End Inherited.

(** A [public] folder with two files, and [path] on simple names. *)
Module Disk.

Definition join3 (a b c : string) : string :=
  a ++ "/" ++ b ++ (if String.prefix "/" c then c else "/" ++ c).

(** The extension of a name with at most one dot after its first
    character. *)
Fixpoint extname (p : string) : string :=
  match p with
  | EmptyString => ""
  | String c p' => if Ascii.eqb c "." then p else extname p'
  end.

Definition files (p : string) : option string :=
  if String.eqb p "/srv/public/index.html" then Some "<html></html>"
  else if String.eqb p "/srv/public/app.js" then Some "load()"
  else None.

Definition node : Node := {|
  dirname := "/srv";
  path_join := join3;
  path_extname := extname;
  readFile := files;
|}.

End Disk.

(** * Properties *)

Local Open Scope list_scope.

(** ** Facts about binary64 comparison and non-finite values *)

Section FloatFacts.

Lemma SFleb_trans a b c :
  SFleb a b = true -> SFleb b c = true -> SFleb a c = true.
Proof.
  unfold SFleb.
  destruct a as [sa|sa| |sa ma ea], b as [sb|sb| |sb mb eb],
           c as [sc|sc| |sc mc ec];
    simpl; try discriminate; try reflexivity;
    repeat match goal with s : bool |- _ => destruct s end; simpl;
    try discriminate; try reflexivity.
  all: destruct (Z.compare_spec ea eb), (Z.compare_spec eb ec),
         (Z.compare_spec ea ec);
    try discriminate; try reflexivity; try lia; subst.
  all: fold (Pos.compare ma mb) (Pos.compare mb mc) (Pos.compare ma mc).
  all: destruct (Pos.compare_spec ma mb), (Pos.compare_spec mb mc),
         (Pos.compare_spec ma mc);
    simpl; try discriminate; try reflexivity; lia.
Qed.

Lemma SFltb_not_leb a b : SFltb a b = true -> SFleb b a = false.
Proof.
  unfold SFltb, SFleb.
  destruct a as [sa|sa| |sa ma ea], b as [sb|sb| |sb mb eb];
    simpl; try discriminate; try reflexivity;
    repeat match goal with s : bool |- _ => destruct s end; simpl;
    try discriminate; try reflexivity.
  all: rewrite (Z.compare_antisym ea eb);
    destruct (Z.compare_spec ea eb); simpl;
    try discriminate; try reflexivity; subst.
  all: fold (Pos.compare ma mb) (Pos.compare mb ma);
    rewrite (Pos.compare_antisym ma mb);
    destruct (Pos.compare ma mb); simpl; try discriminate; reflexivity.
Qed.

Lemma SFleb_refl a : a <> S754_nan -> SFleb a a = true.
Proof.
  unfold SFleb.
  destruct a as [sa|sa| |sa ma ea]; simpl; try congruence;
    destruct sa; try reflexivity; intros _;
    rewrite Z.compare_refl; fold (Pos.compare ma ma);
    rewrite Pos.compare_refl; reflexivity.
Qed.

Lemma SFltb_leb a b : SFltb a b = true -> SFleb a b = true.
Proof.
  unfold SFltb, SFleb. destruct (SFcompare a b) as [[]|]; congruence.
Qed.

Lemma SFltb_not_nan a b :
  SFltb a b = true -> a <> S754_nan /\ b <> S754_nan.
Proof.
  unfold SFltb.
  destruct a, b; simpl; try discriminate; intros _; split; congruence.
Qed.

Lemma float_leb_trans (x y z : float) :
  PrimFloat.leb x y = true -> PrimFloat.leb y z = true ->
  PrimFloat.leb x z = true.
Proof. rewrite !FloatAxioms.leb_spec. apply SFleb_trans. Qed.

Lemma float_ltb_not_leb (x y : float) :
  PrimFloat.ltb x y = true -> PrimFloat.leb y x = false.
Proof. rewrite FloatAxioms.ltb_spec, FloatAxioms.leb_spec. apply SFltb_not_leb. Qed.

Lemma float_ltb_leb (x y : float) :
  PrimFloat.ltb x y = true -> PrimFloat.leb x y = true.
Proof. rewrite FloatAxioms.ltb_spec, FloatAxioms.leb_spec. apply SFltb_leb. Qed.

Lemma float_ltb_leb_refl (x y : float) :
  PrimFloat.ltb x y = true ->
  PrimFloat.leb x x = true /\ PrimFloat.leb y y = true.
Proof.
  rewrite FloatAxioms.ltb_spec, !FloatAxioms.leb_spec. intros H.
  destruct (SFltb_not_nan _ _ H). split; now apply SFleb_refl.
Qed.

Lemma float_is_finite_spec (x : float) :
  PrimFloat.is_finite x = SFis_finite (Prim2SF x).
Proof.
  unfold PrimFloat.is_finite, PrimFloat.is_nan, PrimFloat.is_infinity.
  rewrite !FloatAxioms.eqb_spec, FloatAxioms.abs_spec.
  change (Prim2SF infinity) with (S754_infinity false).
  unfold SFeqb.
  destruct (Prim2SF x) as [s|s| |s m e]; simpl; try reflexivity;
    destruct s; simpl; try reflexivity;
    rewrite Z.compare_refl; fold (Pos.compare m m);
    rewrite Pos.compare_refl; reflexivity.
Qed.

Lemma float_eqb_zero (b : float) :
  PrimFloat.eqb b 0 = true -> exists s, Prim2SF b = S754_zero s.
Proof.
  rewrite FloatAxioms.eqb_spec. change (Prim2SF 0) with (S754_zero false).
  unfold SFeqb.
  destruct (Prim2SF b) as [s|s| |s m e]; simpl; try discriminate;
    try (destruct s; discriminate).
  intros _. now exists s.
Qed.

(** [(s - b) / b] is NaN or an infinity when [b] is a zero. *)
Lemma float_div_by_zero_not_finite (s b : float) :
  PrimFloat.eqb b 0 = true ->
  PrimFloat.is_finite ((s - b) / b) = false.
Proof.
  intros Hb. destruct (float_eqb_zero b Hb) as [sb Eb].
  rewrite float_is_finite_spec, FloatAxioms.div_spec, FloatAxioms.sub_spec, Eb.
  unfold SF64div, SF64sub.
  destruct (Prim2SF s) as [ss|ss| |ss m e]; simpl; try reflexivity;
    destruct ss, sb; reflexivity.
Qed.

(** A non-finite term makes a sum non-finite. *)
Lemma float_add_not_finite_r (x y : float) :
  PrimFloat.is_finite y = false -> PrimFloat.is_finite (x + y) = false.
Proof.
  rewrite !float_is_finite_spec, FloatAxioms.add_spec. unfold SF64add.
  destruct (Prim2SF x) as [sx|sx| |sx mx ex],
           (Prim2SF y) as [sy|sy| |sy my ey];
    simpl; try discriminate; try reflexivity;
    destruct sx, sy; reflexivity.
Qed.

Lemma float_add_not_finite_l (x y : float) :
  PrimFloat.is_finite x = false -> PrimFloat.is_finite (x + y) = false.
Proof.
  rewrite !float_is_finite_spec, FloatAxioms.add_spec. unfold SF64add.
  destruct (Prim2SF x) as [sx|sx| |sx mx ex],
           (Prim2SF y) as [sy|sy| |sy my ey];
    simpl; try discriminate; try reflexivity;
    destruct sx, sy; reflexivity.
Qed.

(** Adding [0] does not change how a number compares. *)
Lemma SFcompare_add_zero a b :
  SFcompare a (SF64add b (S754_zero false)) = SFcompare a b.
Proof.
  unfold SF64add.
  destruct b as [sb|sb| |sb mb eb]; try reflexivity.
  destruct sb; destruct a as [sa|sa| |sa ma ea]; reflexivity.
Qed.

Lemma float_leb_add_zero (x t : float) :
  PrimFloat.leb x (t + 0) = PrimFloat.leb x t.
Proof.
  rewrite !FloatAxioms.leb_spec, FloatAxioms.add_spec.
  change (Prim2SF 0) with (S754_zero false).
  unfold SFleb. now rewrite SFcompare_add_zero.
Qed.

(** A non-finite dividend makes a quotient non-finite. *)
Lemma float_div_not_finite_l (x y : float) :
  PrimFloat.is_finite x = false -> PrimFloat.is_finite (x / y) = false.
Proof.
  rewrite !float_is_finite_spec, FloatAxioms.div_spec. unfold SF64div.
  destruct (Prim2SF x) as [sx|sx| |sx mx ex],
           (Prim2SF y) as [sy|sy| |sy my ey];
    simpl; try discriminate; reflexivity.
Qed.

Lemma float_is_nan_spec (x : float) :
  PrimFloat.is_nan x = true <-> Prim2SF x = S754_nan.
Proof.
  unfold PrimFloat.is_nan. rewrite FloatAxioms.eqb_spec. unfold SFeqb.
  destruct (Prim2SF x) as [s|s| |s m e]; simpl.
  - split; discriminate.
  - destruct s; split; discriminate.
  - split; reflexivity.
  - destruct s; rewrite Z.compare_refl; fold (Pos.compare m m);
      rewrite Pos.compare_refl; split; discriminate.
Qed.

(** Nothing is at or before NaN. *)
Lemma float_leb_nan_r (x t : float) :
  PrimFloat.is_nan t = true -> PrimFloat.leb x t = false.
Proof.
  rewrite float_is_nan_spec, FloatAxioms.leb_spec. intros ->.
  unfold SFleb. now destruct (Prim2SF x).
Qed.

Lemma float_sub_nan_l (t y : float) :
  PrimFloat.is_nan t = true -> PrimFloat.is_nan (t - y) = true.
Proof.
  rewrite !float_is_nan_spec, FloatAxioms.sub_spec. now intros ->.
Qed.

Lemma float_add_nan_l (t y : float) :
  PrimFloat.is_nan t = true -> PrimFloat.is_nan (t + y) = true.
Proof.
  rewrite !float_is_nan_spec, FloatAxioms.add_spec. now intros ->.
Qed.

(** Subtracting [0] changes nothing, not even the sign of a zero. *)
Lemma float_sub_zero (t : float) : (t - 0)%float = t.
Proof.
  apply Prim2SF_inj. rewrite FloatAxioms.sub_spec.
  change (Prim2SF 0) with (S754_zero false). unfold SF64sub.
  destruct (Prim2SF t) as [s|s| |s m e]; try reflexivity.
  now destruct s.
Qed.

(** Buying and selling at the same price is never a gain. *)
Lemma float_same_price_roi (p : float) :
  PrimFloat.ltb 0 ((p - p) / p) = false.
Proof.
  rewrite FloatAxioms.ltb_spec, FloatAxioms.div_spec, FloatAxioms.sub_spec.
  change (Prim2SF 0) with (S754_zero false).
  unfold SF64div, SF64sub.
  destruct (Prim2SF p) as [s|s| |s m e]; try (destruct s; reflexivity);
    try reflexivity.
  unfold SFsub. rewrite Z.sub_diag. simpl. now destruct s.
Qed.

(** [0 / y] is [0] for a positive [y]. *)
Lemma float_zero_div_pos (y : float) :
  PrimFloat.ltb 0 y = true -> (0 / y)%float = 0%float.
Proof.
  rewrite FloatAxioms.ltb_spec. change (Prim2SF 0) with (S754_zero false).
  intros H. apply Prim2SF_inj. rewrite FloatAxioms.div_spec.
  change (Prim2SF 0) with (S754_zero false). unfold SF64div.
  unfold SFltb in H.
  destruct (Prim2SF y) as [s|s| |s m e]; simpl in *; try discriminate;
    destruct s; try discriminate; reflexivity.
Qed.

End FloatFacts.

(** ** Conversions *)

Section ConversionFacts.
Context {rt : Runtime}.

Lemma ToString_array elems :
  ToString (VArr elems)
  = let* parts := mapM element_string elems in ret (join_comma parts).
Proof.
  cbn [ToString]. f_equal.
  induction elems as [|e es IH]; [reflexivity|].
  cbn [mapM]. rewrite <- IH. reflexivity.
Qed.

Lemma element_string_ok e :
  (exists s, element_string e = inr s) <-> (exists s, ToString e = inr s).
Proof. destruct e; simpl; split; eauto. Qed.

Lemma mapM_ok {A B} (f : A -> Result B) (xs : list A) :
  (exists ys, mapM f xs = inr ys) <-> Forall (fun x => exists y, f x = inr y) xs.
Proof.
  induction xs as [|x xs IH]; simpl.
  - split; [constructor | eauto].
  - rewrite Forall_cons, <- IH. split.
    + intros [ys H]. destruct (f x) as [e|y]; [discriminate|].
      simpl in H. destruct (mapM f xs) as [e|ys']; [discriminate|]. eauto.
    + intros [[y Hy] [ys Hys]]. rewrite Hy, Hys. simpl. eauto.
Qed.

(** [ToString] returns exactly on the convertible values. *)
Lemma ToString_convertible :
  forall v, convertible v = true <-> exists s, ToString v = inr s.
Proof.
  fix IH 1. intros v. destruct v as [| |b|x|s|elems|props].
  - split; simpl; eauto.
  - split; simpl; eauto.
  - destruct b; split; simpl; eauto.
  - split; simpl; eauto.
  - split; simpl; eauto.
  - rewrite ToString_array. cbn [convertible].
    assert (He : forallb convertible elems = true
                 <-> exists parts, mapM element_string elems = inr parts).
    { rewrite mapM_ok.
      induction elems as [|e es IHes].
      - split; [constructor | reflexivity].
      - cbn [forallb]. rewrite andb_true_iff, Forall_cons, IHes.
        rewrite element_string_ok, (IH e). reflexivity. }
    rewrite He. split.
    + intros [parts ->]. simpl. eauto.
    + intros [s H]. destruct (mapM element_string elems); [discriminate|].
      eauto.
  - cbn [convertible ToString].
    destruct (has_own props "toString"); simpl; split; eauto;
      try discriminate. intros [s H]. discriminate.
Qed.

Lemma ToString_not_convertible v :
  convertible v = false <-> exists e, ToString v = inl e.
Proof.
  pose proof (ToString_convertible v) as H.
  destruct (convertible v), (ToString v) as [e|s]; split; eauto;
    try discriminate.
  - intros _. destruct (proj1 H eq_refl). discriminate.
  - intros [e He]. discriminate.
  - intros _. destruct H as [_ H]. discriminate H. eauto.
Qed.

(** [Number(v)] returns exactly on the convertible values. *)
Lemma ToNumber_convertible v :
  convertible v = true <-> exists x, ToNumber v = inr x.
Proof.
  rewrite ToString_convertible.
  destruct v as [| |b|x|s|elems|props]; try (destruct b);
    try (split; simpl; eauto; fail).
  - unfold ToNumber. destruct (ToString (VArr elems)); simpl;
      split; eauto; intros [? ?]; discriminate.
  - unfold ToNumber. destruct (ToString (VObj props)); simpl;
      split; eauto; intros [? ?]; discriminate.
Qed.

Lemma ToNumber_not_convertible v :
  convertible v = false -> exists e, ToNumber v = inl e.
Proof.
  intros H. pose proof (ToNumber_convertible v) as Hc.
  destruct (ToNumber v) as [e|x]; [eauto|].
  rewrite (proj2 Hc) in H by eauto. discriminate.
Qed.

End ConversionFacts.

(** ** The price lookup *)

Section PriceLookup.
Context {rt : Runtime} {G : Globals}.

Lemma tracked_cons p pre price :
  tracked (p :: pre) price = tracked pre (Some (p_price p)).
Proof.
  unfold tracked. destruct pre as [|p' pre']; [reflexivity|].
  change (last (p :: p' :: pre')) with (last (p' :: pre')).
  destruct (last (p' :: pre')) eqn:E; [reflexivity|].
  apply last_None in E. discriminate.
Qed.

Lemma getPrice_loop_accepts pre rest ts price :
  forallb (qualifies ts) pre = true ->
  getPrice_loop (pre ++ rest) ts price
  = getPrice_loop rest ts (tracked pre price).
Proof.
  revert price. induction pre as [|p pre IH]; intros price Hq.
  - reflexivity.
  - simpl in Hq. apply andb_true_iff in Hq as [Hp Hpre].
    simpl. unfold qualifies in Hp. rewrite Hp, IH by assumption.
    now rewrite tracked_cons.
Qed.

Lemma getPrice_loop_stops p rest ts price :
  qualifies ts p = false -> getPrice_loop (p :: rest) ts price = price.
Proof. intros Hp. simpl. unfold qualifies in Hp. now rewrite Hp. Qed.

Lemma sorted_series_tail p rest :
  sorted_series (p :: rest) = true -> sorted_series rest = true.
Proof.
  destruct rest as [|p' rest']; [reflexivity|].
  intros H. change (sorted_series (p :: p' :: rest')) with
    (PrimFloat.leb (Date_parse (p_timestamp p)) (Date_parse (p_timestamp p'))
     && sorted_series (p' :: rest')) in H.
  now apply andb_true_iff in H as [_ H].
Qed.

(** In a sorted series every sample is at or before each later one, so a
    sample that qualifies makes every earlier one qualify. *)
Lemma sorted_series_qualifies init pl ts :
  sorted_series (init ++ [pl]) = true ->
  qualifies ts pl = true ->
  forallb (qualifies ts) (init ++ [pl]) = true.
Proof.
  intros Hs Hl. induction init as [|p init IH].
  - simpl. now rewrite Hl.
  - pose proof (sorted_series_tail _ _ Hs) as Ht.
    specialize (IH Ht). change ((p :: init) ++ [pl])%list
      with (p :: (init ++ [pl]))%list in *.
    simpl. rewrite IH, andb_true_r.
    destruct (init ++ [pl])%list as [|p' tl] eqn:E.
    + destruct init; discriminate.
    + simpl in Hs, IH.
      apply andb_true_iff in Hs as [Hpp' _].
      apply andb_true_iff in IH as [Hp' _].
      unfold qualifies in *. eapply float_leb_trans; eassumption.
Qed.

(** In a sorted series the first sample is at or before every later one. *)
Lemma sorted_series_head p rest :
  sorted_series (p :: rest) = true ->
  forallb (fun p' => PrimFloat.leb (Date_parse (p_timestamp p))
                       (Date_parse (p_timestamp p'))) rest = true.
Proof.
  revert p. induction rest as [|p' rest IH]; intros p Hs; [reflexivity|].
  simpl in Hs. apply andb_true_iff in Hs as [Hpp' Hs].
  simpl. rewrite Hpp'. simpl.
  specialize (IH p' Hs). rewrite forallb_forall in IH |- *.
  intros x Hx. eapply float_leb_trans; [exact Hpp' | now apply IH].
Qed.

(** On a sorted series the loop keeps the price of the last of all the
    samples at or before [ts]: leaving at the first later sample loses
    nothing. *)
Lemma getPrice_loop_sorted series ts price :
  sorted_series series = true ->
  getPrice_loop series ts price
  = tracked (List.filter (qualifies ts) series) price.
Proof.
  revert price. induction series as [|p rest IH]; intros price Hs.
  - reflexivity.
  - pose proof (sorted_series_tail _ _ Hs) as Ht.
    simpl. fold (qualifies ts p). destruct (qualifies ts p) eqn:Hp.
    + rewrite IH by assumption. now rewrite tracked_cons.
    + assert (Hnone : List.filter (qualifies ts) rest = []).
      { pose proof (sorted_series_head _ _ Hs) as Hh.
        rewrite forallb_forall in Hh.
        destruct (List.filter (qualifies ts) rest) as [|x l] eqn:E;
          [reflexivity|].
        assert (Hx : In x (List.filter (qualifies ts) rest))
          by (rewrite E; now left).
        apply filter_In in Hx as [Hin Hq].
        unfold qualifies in Hp, Hq.
        rewrite (float_leb_trans _ _ _ (Hh x Hin) Hq) in Hp. discriminate. }
      now rewrite Hnone.
Qed.

Lemma getPrice_own token key series ts :
  ToPropertyKey token = inr key ->
  priceSeries !! key = Some series ->
  getPrice token ts = inr (getPrice_loop series ts None).
Proof.
  intros Hk Hs. unfold getPrice, priceSeries_get. rewrite Hk. cbn [bind].
  now rewrite Hs.
Qed.

(** Whether [getPrice] throws, and what, does not depend on [ts]. *)
Lemma getPrice_throws_indep token ts ts' e :
  getPrice token ts = inl e -> getPrice token ts' = inl e.
Proof.
  unfold getPrice. destruct (ToPropertyKey token) as [e'|key]; [easy|].
  cbn [bind]. destruct (priceSeries_get key) as [series|[[|n]|]|];
    try discriminate; easy.
Qed.

Lemma getPrice_returns_indep token ts ts' r :
  getPrice token ts = inr r -> exists r', getPrice token ts' = inr r'.
Proof.
  intros H. destruct (getPrice token ts') as [e|r'] eqn:E; [|eauto].
  apply (getPrice_throws_indep _ _ ts) in E. congruence.
Qed.

Lemma getPrice_loop_sample series ts price x :
  getPrice_loop series ts price = Some x ->
  price = Some x
  \/ exists p, p ∈ series /\ p_price p = x /\ qualifies ts p = true.
Proof.
  revert price. induction series as [|p rest IH]; intros price H.
  - now left.
  - simpl in H. destruct (PrimFloat.leb _ ts) eqn:Hp; [|now left].
    right. destruct (IH _ H) as [Hx | [p' [Hin [Hpx Hq]]]].
    + exists p. injection Hx as Hx.
      repeat split; [apply list_elem_of_here | exact Hx | exact Hp].
    + exists p'.
      repeat split; [now apply list_elem_of_further | exact Hpx | exact Hq].
Qed.

Lemma getPrice_loop_keeps series ts x :
  is_Some (getPrice_loop series ts (Some x)).
Proof.
  revert x. induction series as [|p rest IH]; intros x; simpl.
  - eauto.
  - destruct (PrimFloat.leb _ ts); [apply IH | eauto].
Qed.

(** What [getPrice] returns when it returns a price. *)
Lemma getPrice_some_inv token ts x :
  getPrice token ts = inr (Some x) ->
  exists key series,
    ToPropertyKey token = inr key
    /\ priceSeries !! key = Some series
    /\ getPrice_loop series ts None = Some x.
Proof.
  unfold getPrice, priceSeries_get.
  destruct (ToPropertyKey token) as [e|key] eqn:Hk; [discriminate|].
  cbn [bind].
  destruct (priceSeries !! key) as [series|] eqn:Hs.
  - intros [= H]. exists key, series. auto.
  - destruct (Object_prototype key) as [[[|n]|]|]; discriminate.
Qed.

(** C1: [getPrice] does not return [undefined] for every token without a
    price series: for a token named like a function that every object
    inherits from [Object.prototype] and that has parameters ([constructor],
    [hasOwnProperty], [isPrototypeOf], ...), [priceSeries[token]] is that
    function, the loop runs over its [length], and reading
    [series[0].timestamp] throws a [TypeError]. *)
Theorem getPrice_inherited_name (name : string) (n : nat) (ts : float) :
  priceSeries !! name = None ->
  Object_prototype name = Some (BuiltinFunction (S n)) ->
  getPrice (VStr name) ts
  = inl (TypeError (msg_null_property VUndefined "timestamp")).
Proof.
  intros Hown Hproto. unfold getPrice, priceSeries_get. cbn.
  now rewrite Hown, Hproto.
Qed.

(** X17: for a token with a price series, [getPrice(token, ts)] scans the
    series in order, keeps the price of the last sample accepted so far,
    leaves at the first sample whose timestamp exceeds [ts], and returns the
    price it kept: the price of the last sample of the longest prefix of
    samples with timestamp at or before [ts], and [undefined] when that
    prefix is empty.  For a sorted series the result is the price of the
    last of all the samples at or before [ts], a [ts] before the first sample
    gives [undefined], and a [ts] at or after the last sample gives the last
    sample's price.  A token that names neither a series nor a property of
    [Object.prototype] gives [undefined]. *)
Theorem getPrice_as_of (token : Value) (key : string) (ts : float) :
  ToPropertyKey token = inr key ->
  (priceSeries !! key = None -> Object_prototype key = None ->
   getPrice token ts = inr None)
  /\ (forall series : list PricePoint,
        priceSeries !! key = Some series ->
        (forallb (qualifies ts) series = true ->
         getPrice token ts = inr (p_price <$> last series))
        /\ (forall pre p rest,
              series = pre ++ p :: rest ->
              forallb (qualifies ts) pre = true ->
              qualifies ts p = false ->
              getPrice token ts = inr (p_price <$> last pre))
        /\ (forallb (fun p => negb (qualifies ts p)) series = true ->
            getPrice token ts = inr None)
        /\ (sorted_series series = true ->
            getPrice token ts
            = inr (p_price <$> last (List.filter (qualifies ts) series)))
        /\ (sorted_series series = true ->
            forall p rest,
              series = p :: rest ->
              PrimFloat.ltb ts (Date_parse (p_timestamp p)) = true ->
              getPrice token ts = inr None)
        /\ (sorted_series series = true ->
            forall init pl,
              series = init ++ [pl] ->
              PrimFloat.leb (Date_parse (p_timestamp pl)) ts = true ->
              getPrice token ts = inr (Some (p_price pl)))).
Proof.
  intros Hkey. split.
  { intros Hown Hproto. unfold getPrice, priceSeries_get.
    rewrite Hkey. cbn [bind]. now rewrite Hown, Hproto. }
  intros series Hs. rewrite (getPrice_own _ _ _ _ Hkey Hs).
  assert (Hall : forall l, forallb (qualifies ts) l = true ->
                 getPrice_loop l ts None = p_price <$> last l).
  { intros l Hq. rewrite <- (app_nil_r l) at 1.
    rewrite getPrice_loop_accepts by assumption. simpl.
    unfold tracked. now destruct (last l). }
  assert (Hstop : forall pre p rest, forallb (qualifies ts) pre = true ->
                  qualifies ts p = false ->
                  getPrice_loop (pre ++ p :: rest) ts None
                  = p_price <$> last pre).
  { intros pre p rest Hq Hp.
    rewrite getPrice_loop_accepts, getPrice_loop_stops by assumption.
    unfold tracked. now destruct (last pre). }
  repeat split.
  - intros Hq. now rewrite Hall.
  - intros pre p rest -> Hq Hp. now rewrite Hstop.
  - destruct series as [|p rest]; [reflexivity|].
    simpl. intros H. apply andb_true_iff in H as [Hp _].
    apply negb_true_iff in Hp. unfold qualifies in Hp. now rewrite Hp.
  - intros Hsorted. rewrite getPrice_loop_sorted by assumption.
    unfold tracked. now destruct (last _).
  - intros _ p rest -> Hlt.
    change (p :: rest) with ([] ++ p :: rest).
    rewrite Hstop; [reflexivity | reflexivity |].
    unfold qualifies. now apply float_ltb_not_leb.
  - intros Hsorted init pl -> Hl.
    rewrite Hall by (now apply sorted_series_qualifies).
    now rewrite last_snoc.
Qed.

(** X1: a price returned by [getPrice] is the price of a sample of the
    token's series whose timestamp is at or before [ts]: no price is made up
    and none is taken from the future, sorted series or not. *)
Theorem getPrice_returns_sample (token : Value) (ts x : float) :
  getPrice token ts = inr (Some x) ->
  exists key series p,
    ToPropertyKey token = inr key
    /\ priceSeries !! key = Some series
    /\ p ∈ series
    /\ p_price p = x
    /\ PrimFloat.leb (Date_parse (p_timestamp p)) ts = true.
Proof.
  intros H. apply getPrice_some_inv in H as [key [series [Hk [Hs Hl]]]].
  destruct (getPrice_loop_sample _ _ _ _ Hl) as [Hx | [p Hp]];
    [discriminate|].
  exists key, series, p. auto.
Qed.

(** X2: whether [getPrice] finds a price depends on the first sample only:
    it does exactly when the token has a series whose first sample is at or
    before [ts].  So a token that has a price at [ts] has one at every later
    instant. *)
Theorem getPrice_covered_iff (token : Value) (ts : float) :
  ((exists x, getPrice token ts = inr (Some x))
   <-> exists key p rest,
         ToPropertyKey token = inr key
         /\ priceSeries !! key = Some (p :: rest)
         /\ PrimFloat.leb (Date_parse (p_timestamp p)) ts = true)
  /\ (forall ts',
        (exists x, getPrice token ts = inr (Some x)) ->
        PrimFloat.leb ts ts' = true ->
        exists x', getPrice token ts' = inr (Some x')).
Proof.
  assert (Hiff : forall t,
            (exists x, getPrice token t = inr (Some x))
            <-> exists key p rest,
                  ToPropertyKey token = inr key
                  /\ priceSeries !! key = Some (p :: rest)
                  /\ PrimFloat.leb (Date_parse (p_timestamp p)) t = true).
  { intros t. split.
    - intros [x H]. apply getPrice_some_inv in H as [key [series [Hk [Hs Hl]]]].
      destruct series as [|p rest]; [discriminate|].
      simpl in Hl. destruct (PrimFloat.leb _ t) eqn:Hp; [|discriminate].
      exists key, p, rest. auto.
    - intros [key [p [rest [Hk [Hs Hp]]]]].
      rewrite (getPrice_own _ _ _ _ Hk Hs). simpl. rewrite Hp.
      destruct (getPrice_loop_keeps rest t (p_price p)) as [x ->]. eauto. }
  split; [apply Hiff|].
  intros ts' Hts Hle. apply Hiff.
  apply Hiff in Hts as [key [p [rest [Hk [Hs Hq]]]]].
  exists key, p, rest. split; [exact Hk|]. split; [exact Hs|].
  eapply float_leb_trans; eassumption.
Qed.

End PriceLookup.

(** ** The backtest *)

Section Backtest.
Context {rt : Runtime} {G : Globals}.

Lemma forEach_app {A S} (f : S -> A -> Result S) xs ys acc :
  forEach f (xs ++ ys) acc
  = let* a := forEach f xs acc in forEach f ys a.
Proof.
  revert acc. induction xs as [|x xs IH]; intros acc; [reflexivity|].
  simpl. destruct (f acc x) as [e|a]; [reflexivity|]. simpl. apply IH.
Qed.

Lemma backtest_totals_snoc token hb ha events ev :
  backtest_totals token hb ha (events ++ [ev])
  = let* a := backtest_totals token hb ha events in
    backtest_step token hb ha a ev.
Proof.
  unfold backtest_totals. rewrite forEach_app.
  destruct (forEach _ events _) as [e|a]; [reflexivity|].
  simpl. now destruct (backtest_step token hb ha a ev).
Qed.

Lemma backtest_step_uncovered token hb ha acc ev :
  uncovered token hb ha ev = true ->
  backtest_step token hb ha acc ev = inr acc.
Proof.
  unfold uncovered, backtest_step.
  destruct (getPrice token (buyTs hb ev)) as [e|[b|]];
    destruct (getPrice token (sellTs ha ev)) as [e'|[s|]];
    intros; try discriminate; reflexivity.
Qed.

Lemma backtest_step_covered token hb ha acc ev b s :
  getPrice token (buyTs hb ev) = inr (Some b) ->
  getPrice token (sellTs ha ev) = inr (Some s) ->
  backtest_step token hb ha acc ev
  = inr {| t_trades := (t_trades acc + 1)%float;
           t_wins := if PrimFloat.ltb 0 ((s - b) / b)
                     then (t_wins acc + 1)%float else t_wins acc;
           t_totalRoi := (t_totalRoi acc + (s - b) / b)%float |}.
Proof. intros Hb Hs. unfold backtest_step. now rewrite Hb, Hs. Qed.

(** What a step that returns has done. *)
Lemma backtest_step_inv token hb ha acc ev acc' :
  backtest_step token hb ha acc ev = inr acc' ->
  (uncovered token hb ha ev = true /\ acc' = acc)
  \/ (uncovered token hb ha ev = false
      /\ exists b s,
           getPrice token (buyTs hb ev) = inr (Some b)
           /\ getPrice token (sellTs ha ev) = inr (Some s)
           /\ acc' = {| t_trades := (t_trades acc + 1)%float;
                        t_wins := if PrimFloat.ltb 0 ((s - b) / b)
                                  then (t_wins acc + 1)%float
                                  else t_wins acc;
                        t_totalRoi := (t_totalRoi acc + (s - b) / b)%float |}).
Proof.
  unfold uncovered, backtest_step.
  destruct (getPrice token (buyTs hb ev)) as [e|[b|]];
    destruct (getPrice token (sellTs ha ev)) as [e'|[s|]];
    cbn; intros H; try discriminate; injection H as <-; auto.
  right. split; [reflexivity|]. exists b, s. auto.
Qed.

Lemma forEach_backtest_step_uncovered token hb ha events acc :
  forallb (uncovered token hb ha) events = true ->
  forEach (backtest_step token hb ha) events acc = inr acc.
Proof.
  revert acc. induction events as [|ev events IH]; intros acc H.
  - reflexivity.
  - simpl in H. apply andb_true_iff in H as [Hev Hevs].
    simpl. rewrite backtest_step_uncovered by assumption. now apply IH.
Qed.

Lemma forEach_backtest_step_not_finite token hb ha events acc acc' :
  forEach (backtest_step token hb ha) events acc = inr acc' ->
  PrimFloat.is_finite (t_totalRoi acc) = false ->
  PrimFloat.is_finite (t_totalRoi acc') = false.
Proof.
  revert acc. induction events as [|ev events IH]; intros acc H Hnf.
  - injection H as <-. exact Hnf.
  - simpl in H.
    destruct (backtest_step token hb ha acc ev) as [e|a] eqn:Es;
      [discriminate|].
    simpl in H. apply (IH a H).
    apply backtest_step_inv in Es as [[_ ->] | [_ [b [s [_ [_ ->]]]]]];
      [exact Hnf|].
    simpl. now apply float_add_not_finite_l.
Qed.

(** When [getPrice] returns for the token, no step throws. *)
Lemma backtest_step_returns token hb ha acc ev ts r :
  getPrice token ts = inr r ->
  exists acc', backtest_step token hb ha acc ev = inr acc'.
Proof.
  intros H. unfold backtest_step.
  destruct (getPrice_returns_indep _ _ (buyTs hb ev) _ H) as [rb ->].
  destruct (getPrice_returns_indep _ _ (sellTs ha ev) _ H) as [rs ->].
  cbn. destruct rb, rs; eauto.
Qed.

Lemma forEach_backtest_step_returns token hb ha events acc ts r :
  getPrice token ts = inr r ->
  exists acc', forEach (backtest_step token hb ha) events acc = inr acc'.
Proof.
  intros H. revert acc. induction events as [|ev events IH]; intros acc.
  - simpl. eauto.
  - simpl.
    destruct (backtest_step_returns token hb ha acc ev ts r H) as [a ->].
    simpl. apply IH.
Qed.

Lemma events_of_string token u :
  In u (events_of token) -> token = VStr (u_token u).
Proof.
  unfold events_of. intros H. apply filter_In in H as [_ H].
  destruct token; try discriminate. simpl in H.
  apply String.eqb_eq in H. now subst.
Qed.

Lemma events_of_not_string token :
  (forall s, token <> VStr s) -> events_of token = [].
Proof.
  intros Hns. destruct (events_of token) as [|u l] eqn:E; [reflexivity|].
  destruct (Hns (u_token u)). apply events_of_string. rewrite E. now left.
Qed.

(** When [backtest] throws: the token is the string of some unlock event,
    has no price series, and names an inherited function with parameters. *)
Lemma backtest_throws_iff token hb ha :
  (exists e, backtest token hb ha = inl e)
  <-> events_of token <> []
      /\ exists name n,
           token = VStr name
           /\ priceSeries !! name = None
           /\ Object_prototype name = Some (BuiltinFunction (S n)).
Proof.
  unfold backtest, backtest_totals. split.
  - intros [e He].
    destruct (events_of token) as [|u l] eqn:Eev; [discriminate|].
    split; [discriminate|].
    assert (Ht : token = VStr (u_token u))
      by (apply events_of_string; rewrite Eev; now left).
    exists (u_token u).
    destruct (priceSeries !! u_token u) as [series|] eqn:Es.
    { exfalso.
      destruct (forEach_backtest_step_returns token hb ha (u :: l)
                  {| t_trades := 0; t_wins := 0; t_totalRoi := 0 |}
                  0%float (getPrice_loop series 0 None)) as [a Ha].
      - rewrite Ht. unfold getPrice, priceSeries_get. cbn. now rewrite Es.
      - rewrite Ha in He. discriminate. }
    destruct (Object_prototype (u_token u)) as [[[|n]|]|] eqn:Ep.
    2: { exists n. auto. }
    all: exfalso;
      destruct (forEach_backtest_step_returns token hb ha (u :: l)
                  {| t_trades := 0; t_wins := 0; t_totalRoi := 0 |}
                  0%float None) as [a Ha];
      [ rewrite Ht; unfold getPrice, priceSeries_get; cbn;
        now rewrite Es, Ep
      | rewrite Ha in He; discriminate ].
  - intros [Hne [name [n [-> [Hown Hproto]]]]].
    destruct (events_of (VStr name)) as [|u l]; [now destruct Hne|].
    eexists. cbn [forEach]. unfold backtest_step.
    unfold getPrice, priceSeries_get. cbn. rewrite Hown, Hproto.
    reflexivity.
Qed.

Lemma backtest_returns token hb ha :
  (events_of token = []
   \/ forall name n,
        token = VStr name -> priceSeries !! name = None ->
        Object_prototype name <> Some (BuiltinFunction (S n))) ->
  exists result, backtest token hb ha = inr result.
Proof.
  intros H. destruct (backtest token hb ha) as [e|result] eqn:E; [|eauto].
  exfalso.
  destruct (proj1 (backtest_throws_iff token hb ha))
    as [Hne [name [n [Ht [Hown Hproto]]]]]; [eauto|].
  destruct H as [H|H]; [contradiction|]. exact (H name n Ht Hown Hproto).
Qed.

(** C2: for an event handled by [backtest], with
    [buyTs = Date.parse(ev.timestamp) - hoursBefore * 3600 * 1000] and
    [sellTs = Date.parse(ev.timestamp) + hoursAfter * 3600 * 1000]: when the
    price at [buyTs] or at [sellTs] is [undefined] the counters are left as
    they were; otherwise [trades] grows by one, [roi = (sellPrice - buyPrice)
    / buyPrice] is added to [totalRoi], and [wins] grows by one exactly when
    [roi > 0], so not when [roi] is 0.  The events are those of the requested
    token, handled one after the other. *)
Theorem backtest_step_spec (token : Value) (hoursBefore hoursAfter : float)
    (acc : Totals) (ev : UnlockEvent) :
  let buy := getPrice token
               (Date_parse (u_timestamp ev) - hoursBefore * 3600 * 1000) in
  let sell := getPrice token
                (Date_parse (u_timestamp ev) + hoursAfter * 3600 * 1000) in
  let step := backtest_step token hoursBefore hoursAfter acc ev in
  (buy = inr None \/ sell = inr None -> step = inr acc)
  /\ (forall buyPrice sellPrice,
        buy = inr (Some buyPrice) -> sell = inr (Some sellPrice) ->
        let roi := ((sellPrice - buyPrice) / buyPrice)%float in
        exists acc',
          step = inr acc'
          /\ t_trades acc' = (t_trades acc + 1)%float
          /\ t_totalRoi acc' = (t_totalRoi acc + roi)%float
          /\ (PrimFloat.ltb 0 roi = true ->
              t_wins acc' = (t_wins acc + 1)%float)
          /\ (PrimFloat.ltb 0 roi = false -> t_wins acc' = t_wins acc)
          /\ (roi = 0%float -> t_wins acc' = t_wins acc))
  /\ (forall before,
        backtest_totals token hoursBefore hoursAfter (before ++ [ev])
        = let* a := backtest_totals token hoursBefore hoursAfter before in
          backtest_step token hoursBefore hoursAfter a ev)
  /\ backtest token hoursBefore hoursAfter
     = let* a :=
         backtest_totals token hoursBefore hoursAfter
           (List.filter (fun u => strict_eq_string (u_token u) token)
              unlocks) in
       ret (summarize a).
Proof.
  cbv zeta. fold (buyTs hoursBefore ev) (sellTs hoursAfter ev).
  split; [|split; [|split]].
  - intros [Hb | Hs]; apply backtest_step_uncovered; unfold uncovered.
    + rewrite Hb.
      destruct (getPrice_returns_indep _ _ (sellTs hoursAfter ev) _ Hb)
        as [r ->]. reflexivity.
    + rewrite Hs.
      destruct (getPrice_returns_indep _ _ (buyTs hoursBefore ev) _ Hs)
        as [[b|] ->]; reflexivity.
  - intros buyPrice sellPrice Hb Hs.
    rewrite (backtest_step_covered _ _ _ _ _ _ _ Hb Hs).
    eexists. split; [reflexivity|]. cbn.
    repeat split; intros ->; reflexivity.
  - intros before. apply backtest_totals_snoc.
  - reflexivity.
Qed.

(** C3: when no trade is counted, [backtest] returns
    [{trades: 0, winRate: 0, avgRoi: 0}]: that is so when no unlock event has
    the requested token, when every event of the token lacks a buy price or a
    sell price, and whenever the counter [trades] ends at 0. *)
Theorem backtest_no_trades (token : Value) (hoursBefore hoursAfter : float) :
  (events_of token = [] ->
   backtest token hoursBefore hoursAfter = inr no_trades)
  /\ (forallb (uncovered token hoursBefore hoursAfter) (events_of token) = true
      -> backtest token hoursBefore hoursAfter = inr no_trades)
  /\ (forall acc,
        backtest_totals token hoursBefore hoursAfter (events_of token)
        = inr acc ->
        t_trades acc = 0%float ->
        backtest token hoursBefore hoursAfter = inr no_trades).
Proof.
  unfold backtest. repeat split.
  - intros ->. reflexivity.
  - intros H. unfold backtest_totals.
    rewrite forEach_backtest_step_uncovered by assumption. reflexivity.
  - intros acc -> H. cbn. unfold summarize. rewrite H. reflexivity.
Qed.

(** C4: with the price series of [AAA] equal to [(t0, 10.0), (t0+1h, 12.0)]
    and a single unlock of [AAA] at [t0+1h], [backtest("AAA", 1, 0)] buys at
    [t0] for 10, sells at [t0+1h] for 12 and returns
    [{trades: 1, winRate: 1, avgRoi: 0.2}].  The two instants are given by
    their strings [s0] and [s1]; that they are one hour apart is stated on the
    numbers [Date.parse] gives for them, as the code computes with them:
    [t0 < t1] and [t1 - 1 * 3600 * 1000] is [t0] (exact for millisecond
    instants). *)
Theorem backtest_scenario (s0 s1 : string) (ev : UnlockEvent) :
  let t0 := Date_parse s0 in
  let t1 := Date_parse s1 in
  priceSeries !! "AAA"
  = Some [ {| p_timestamp := s0; p_price := 10 |};
           {| p_timestamp := s1; p_price := 12 |} ] ->
  events_of (VStr "AAA") = [ev] ->
  u_timestamp ev = s1 ->
  PrimFloat.ltb t0 t1 = true ->
  (t1 - 1 * 3600 * 1000)%float = t0 ->
  getPrice (VStr "AAA") (buyTs 1 ev) = inr (Some 10%float)
  /\ getPrice (VStr "AAA") (sellTs 0 ev) = inr (Some 12%float)
  /\ backtest (VStr "AAA") 1 0
     = inr {| trades := 1; winRate := 1; avgRoi := 0.2 |}.
Proof.
  intros t0 t1 Hseries Hevents Hts Hlt Hbuy.
  destruct (float_ltb_leb_refl _ _ Hlt) as [H00 H11].
  pose proof (float_ltb_leb _ _ Hlt) as H01.
  pose proof (float_ltb_not_leb _ _ Hlt) as H10.
  assert (Eb : getPrice (VStr "AAA") (buyTs 1 ev) = inr (Some 10%float)).
  { rewrite (getPrice_own (VStr "AAA") "AAA" _ _ eq_refl Hseries). unfold buyTs.
    rewrite Hts. fold t1. rewrite Hbuy.
    simpl. fold t0 t1. now rewrite H00, H10. }
  assert (Es : getPrice (VStr "AAA") (sellTs 0 ev) = inr (Some 12%float)).
  { rewrite (getPrice_own (VStr "AAA") "AAA" _ _ eq_refl Hseries). unfold sellTs.
    rewrite Hts. fold t1.
    change (0 * 3600 * 1000)%float with 0%float.
    simpl. fold t0 t1. rewrite !float_leb_add_zero. now rewrite H01, H11. }
  split; [exact Eb|]. split; [exact Es|].
  unfold backtest. rewrite Hevents.
  unfold backtest_totals. cbn [forEach].
  rewrite (backtest_step_covered _ _ _ _ _ _ _ Eb Es). reflexivity.
Qed.

(** C5: when the buy price of an event is a zero and its sell price is
    present, [roi = (sellPrice - buyPrice) / buyPrice] is a division by zero:
    its value is an infinity or NaN.  The event is counted as a trade all the
    same, the value is added to [totalRoi], which is not finite from then on,
    and so is [avgRoi] in the result (whenever [trades > 0] holds at the
    end). *)
Theorem backtest_zero_buy_price (token : Value) (hoursBefore hoursAfter : float)
    (before after : list UnlockEvent) (ev : UnlockEvent)
    (buyPrice sellPrice : float) :
  events_of token = before ++ ev :: after ->
  getPrice token (buyTs hoursBefore ev) = inr (Some buyPrice) ->
  PrimFloat.eqb buyPrice 0 = true ->
  getPrice token (sellTs hoursAfter ev) = inr (Some sellPrice) ->
  let roi := ((sellPrice - buyPrice) / buyPrice)%float in
  exists acc acc' total result,
    backtest_totals token hoursBefore hoursAfter before = inr acc
    /\ backtest_step token hoursBefore hoursAfter acc ev = inr acc'
    /\ backtest_totals token hoursBefore hoursAfter (events_of token)
       = inr total
    /\ backtest token hoursBefore hoursAfter = inr result
    /\ PrimFloat.is_finite roi = false
    /\ t_trades acc' = (t_trades acc + 1)%float
    /\ t_totalRoi acc' = (t_totalRoi acc + roi)%float
    /\ PrimFloat.is_finite (t_totalRoi acc') = false
    /\ PrimFloat.is_finite (t_totalRoi total) = false
    /\ (PrimFloat.ltb 0 (trades result) = true ->
        PrimFloat.is_finite (avgRoi result) = false).
Proof.
  intros Hevents Hb Hzero Hs roi.
  pose proof (float_div_by_zero_not_finite sellPrice buyPrice Hzero) as Hroi.
  unfold backtest_totals in *.
  destruct (forEach_backtest_step_returns token hoursBefore hoursAfter before
              {| t_trades := 0; t_wins := 0; t_totalRoi := 0 |} _ _ Hb)
    as [acc Hacc].
  pose proof (backtest_step_covered token hoursBefore hoursAfter acc ev
                _ _ Hb Hs) as Hstep.
  fold roi in Hstep.
  destruct (forEach_backtest_step_returns token hoursBefore hoursAfter after
              {| t_trades := (t_trades acc + 1)%float;
                 t_wins := if PrimFloat.ltb 0 roi
                           then (t_wins acc + 1)%float else t_wins acc;
                 t_totalRoi := (t_totalRoi acc + roi)%float |} _ _ Hb)
    as [total Htotal].
  assert (Hacc' : PrimFloat.is_finite (t_totalRoi acc + roi) = false)
    by (now apply float_add_not_finite_r).
  assert (Hall : forEach (backtest_step token hoursBefore hoursAfter)
                   (events_of token)
                   {| t_trades := 0; t_wins := 0; t_totalRoi := 0 |}
                 = inr total).
  { rewrite Hevents, forEach_app, Hacc. cbn [bind forEach].
    rewrite Hstep. cbn [bind]. exact Htotal. }
  assert (Htot : PrimFloat.is_finite (t_totalRoi total) = false)
    by (apply (forEach_backtest_step_not_finite _ _ _ _ _ _ Htotal);
        exact Hacc').
  eexists acc, _, total, (summarize total).
  split; [exact Hacc|]. split; [exact Hstep|]. split; [exact Hall|].
  split; [unfold backtest, backtest_totals; now rewrite Hall|].
  split; [exact Hroi|]. split; [reflexivity|]. split; [reflexivity|].
  split; [exact Hacc'|]. split; [exact Htot|].
  unfold summarize. cbn. intros ->. now apply float_div_not_finite_l.
Qed.

End Backtest.

(** ** The backtest route *)

Section BacktestRoute.
Context {rt : Runtime} {G : Globals}.

Lemma get_prop_param params k :
  params <> VNull -> params <> VUndefined ->
  get_prop params k = inr (param params k).
Proof. destruct params; intros; try congruence; reflexivity. Qed.

Lemma or_zero_nan x : PrimFloat.is_nan x = true -> or_zero x = 0%float.
Proof.
  intros H. unfold or_zero, truthy_number. rewrite H, orb_true_r.
  reflexivity.
Qed.

Lemma or_zero_zero x : PrimFloat.eqb x 0 = true -> or_zero x = 0%float.
Proof. intros H. unfold or_zero, truthy_number. now rewrite H. Qed.

Lemma or_zero_truthy x : truthy_number x = true -> or_zero x = x.
Proof. intros H. unfold or_zero. now rewrite H. Qed.

(** The route on a body that parses to a value other than [null] and whose
    offsets convert to numbers. *)
Lemma api_backtest_run chunks params nb na :
  JSON_parse (String.concat "" chunks) = inr params ->
  params <> VNull -> params <> VUndefined ->
  ToNumber (param params "hoursBefore") = inr nb ->
  ToNumber (param params "hoursAfter") = inr na ->
  api_backtest chunks
  = if ToBoolean (param params "token")
    then match backtest (param params "token") (or_zero nb) (or_zero na) with
         | inr result => {| statusCode := 200; body := BodyBacktest result |}
         | inl e => {| statusCode := 400; body := BodyError (message e) |}
         end
    else {| statusCode := 400; body := BodyError "Token is required" |}.
Proof.
  intros Hp Hnull Hundef Hb Ha.
  unfold api_backtest, api_backtest_try. rewrite Hp. cbn [bind ret].
  rewrite !get_prop_param by assumption. cbn [bind ret].
  rewrite Hb. cbn [bind]. rewrite Ha. cbn [bind].
  destruct (ToBoolean (param params "token")); reflexivity.
Qed.

(** The route on an offset that does not convert. *)
Lemma api_backtest_unconvertible chunks params :
  JSON_parse (String.concat "" chunks) = inr params ->
  params <> VNull -> params <> VUndefined ->
  convertible (param params "hoursBefore") = false
  \/ convertible (param params "hoursAfter") = false ->
  exists m,
    api_backtest chunks = {| statusCode := 400; body := BodyError m |}.
Proof.
  intros Hp Hnull Hundef Hc.
  unfold api_backtest, api_backtest_try. rewrite Hp. cbn [bind ret].
  rewrite !get_prop_param by assumption. cbn [bind ret].
  destruct (ToNumber (param params "hoursBefore")) as [e|nb] eqn:Eb;
    [cbn; eauto|].
  cbn [bind].
  destruct (ToNumber (param params "hoursAfter")) as [e|na] eqn:Ea;
    [cbn; eauto|].
  exfalso. destruct Hc as [Hc|Hc].
  - rewrite (proj2 (ToNumber_convertible _)) in Hc by eauto. discriminate.
  - rewrite (proj2 (ToNumber_convertible _)) in Hc by eauto. discriminate.
Qed.

Lemma api_backtest_200_or_400 chunks :
  (statusCode (api_backtest chunks) = 200%Z
   /\ exists result, body (api_backtest chunks) = BodyBacktest result)
  \/ (statusCode (api_backtest chunks) = 400%Z
      /\ exists m, body (api_backtest chunks) = BodyError m).
Proof.
  unfold api_backtest. destruct (api_backtest_try _); cbn; eauto.
Qed.

(** C9: [POST /api/backtest] on a body that parses to [params] (not [null]).
    When [params.token] is missing, or the empty string, or any other falsy
    value, the answer is 400 with an error object carrying a message, which
    is ["Token is required"] when the offsets can be converted.  When the
    token is truthy and the offsets convert to the numbers [nb] and [na],
    [backtest] is run on [nb || 0] and [na || 0] and its result is answered
    with 200; [nb || 0] is 0 when the parameter is missing or when [nb] is
    NaN or 0, and is [nb] itself otherwise ([true] gives 1).  A body that
    does not parse, or parses to [null], is answered with 400 and the message
    of the exception. *)
Theorem api_backtest_params (chunks : list string) :
  (forall params : Value,
     JSON_parse (String.concat "" chunks) = inr params ->
     params <> VNull -> params <> VUndefined ->
     let token := param params "token" in
     let hb := param params "hoursBefore" in
     let ha := param params "hoursAfter" in
     (token = VUndefined \/ token = VStr "" \/ ToBoolean token = false ->
      exists m,
        api_backtest chunks = {| statusCode := 400; body := BodyError m |}
        /\ (convertible hb = true -> convertible ha = true ->
            m = "Token is required"%string))
     /\ (ToBoolean token = true ->
         forall nb na,
           ToNumber hb = inr nb -> ToNumber ha = inr na ->
           (forall result,
              backtest token (or_zero nb) (or_zero na) = inr result ->
              api_backtest chunks
              = {| statusCode := 200; body := BodyBacktest result |})
           /\ (hb = VUndefined \/ PrimFloat.is_nan nb = true
               \/ PrimFloat.eqb nb 0 = true ->
               or_zero nb = 0%float)
           /\ (truthy_number nb = true -> or_zero nb = nb)
           /\ (ha = VUndefined \/ PrimFloat.is_nan na = true
               \/ PrimFloat.eqb na 0 = true ->
               or_zero na = 0%float)
           /\ (truthy_number na = true -> or_zero na = na)))
  /\ (forall m : string,
        JSON_parse (String.concat "" chunks) = inl m ->
        api_backtest chunks = {| statusCode := 400; body := BodyError m |})
  /\ (JSON_parse (String.concat "" chunks) = inr VNull ->
      api_backtest chunks
      = {| statusCode := 400;
           body := BodyError (msg_null_property VNull "token") |}).
Proof.
  split; [|split].
  - intros params Hp Hnull Hundef token hb ha. split.
    + intros Hfalsy.
      assert (Ht : ToBoolean token = false).
      { destruct Hfalsy as [Hu | [He | H]]; [| |exact H].
        - now rewrite Hu.
        - now rewrite He. }
      destruct (convertible hb) eqn:Chb; [destruct (convertible ha) eqn:Cha|].
      * apply ToNumber_convertible in Chb as [nb Hnb].
        apply ToNumber_convertible in Cha as [na Hna].
        rewrite (api_backtest_run chunks params nb na) by assumption.
        fold token. rewrite Ht. eauto.
      * destruct (api_backtest_unconvertible chunks params) as [m Hm];
          auto. exists m. split; [exact Hm | discriminate].
      * destruct (api_backtest_unconvertible chunks params) as [m Hm];
          auto. exists m. split; [exact Hm | discriminate].
    + intros Ht nb na Hnb Hna. split; [|split; [|split; [|split]]].
      * intros result Hr.
        rewrite (api_backtest_run chunks params nb na) by assumption.
        fold token. now rewrite Ht, Hr.
      * intros [Hu | [H | H]];
          [|now apply or_zero_nan | now apply or_zero_zero].
        rewrite Hu in Hnb. injection Hnb as <-. reflexivity.
      * apply or_zero_truthy.
      * intros [Hu | [H | H]];
          [|now apply or_zero_nan | now apply or_zero_zero].
        rewrite Hu in Hna. injection Hna as <-. reflexivity.
      * apply or_zero_truthy.
  - intros m Hp. unfold api_backtest, api_backtest_try. now rewrite Hp.
  - intros Hp. unfold api_backtest, api_backtest_try. now rewrite Hp.
Qed.

End BacktestRoute.

(** ** The normalizer and the unlocks route *)

Section Normalizer.
Context {rt : Runtime} {G : Globals}.

Lemma map_event_object props :
  map_event (VObj props)
  = let* day := ToString (own_property props "date") in
    ret (event_of_record (VObj props) day).
Proof. reflexivity. Qed.

Lemma map_event_record ev day :
  record_fails ev = false ->
  ToString (param ev "date") = inr day ->
  map_event ev = inr (event_of_record ev day).
Proof.
  destruct ev; cbn; intros Hf Hd; try discriminate;
    try (injection Hd as <-; reflexivity).
  unfold map_event. cbn. rewrite Hd. reflexivity.
Qed.

Lemma map_event_ok ev :
  record_fails ev = false ->
  exists e, map_event ev = inr e /\ record_event ev e.
Proof.
  intros Hf.
  assert (Hc : convertible (param ev "date") = true).
  { destruct ev; try discriminate; try reflexivity.
    cbn in Hf. now apply negb_false_iff in Hf. }
  apply ToString_convertible in Hc as [day Hd].
  exists (event_of_record ev day).
  split; [now apply map_event_record | now exists day].
Qed.

Lemma map_event_fails ev :
  record_fails ev = true -> exists err, map_event ev = inl err.
Proof.
  destruct ev; cbn; intros Hf; try discriminate; try (eexists; reflexivity).
  apply negb_true_iff in Hf.
  apply ToString_not_convertible in Hf as [err He].
  exists err. unfold map_event. cbn. now rewrite He.
Qed.

Lemma map_event_inv ev e :
  map_event ev = inr e -> record_fails ev = false /\ record_event ev e.
Proof.
  intros H. destruct (record_fails ev) eqn:Hf.
  - apply map_event_fails in Hf as [err He]. congruence.
  - split; [reflexivity|].
    destruct (map_event_ok ev Hf) as [e' [He' Hr]]. congruence.
Qed.

Lemma mapM_map_event_ok data :
  existsb record_fails data = false ->
  exists events,
    mapM map_event data = inr events /\ Forall2 record_event data events.
Proof.
  induction data as [|ev data IH]; simpl.
  - intros _. exists []. split; [reflexivity | constructor].
  - intros H. apply orb_false_iff in H as [Hev Hdata].
    destruct (map_event_ok ev Hev) as [e [He Hr]].
    destruct (IH Hdata) as [events [Hes Hrs]].
    exists (e :: events). rewrite He, Hes. split; [reflexivity|].
    now constructor.
Qed.

Lemma mapM_map_event_fails data :
  existsb record_fails data = true -> exists err, mapM map_event data = inl err.
Proof.
  induction data as [|ev data IH]; simpl; [discriminate|].
  intros H. destruct (record_fails ev) eqn:Hev.
  - destruct (map_event_fails ev Hev) as [err ->]. simpl. eauto.
  - simpl in H. destruct (IH H) as [err He].
    destruct (map_event ev); simpl; [eauto|]. rewrite He. simpl. eauto.
Qed.

Lemma mapM_map_event_inv data events :
  mapM map_event data = inr events ->
  existsb record_fails data = false /\ Forall2 record_event data events.
Proof.
  intros H. destruct (existsb record_fails data) eqn:E.
  - apply mapM_map_event_fails in E as [err He]. congruence.
  - split; [reflexivity|].
    destruct (mapM_map_event_ok data E) as [events' [He Hr]]. congruence.
Qed.

(** On which parsed bodies the [try] block throws. *)
Lemma normalize_parsed body parsed :
  JSON_parse body = inr parsed ->
  (unusable_value parsed = true -> exists err, normalize body = inl err)
  /\ (unusable_value parsed = false ->
      exists data events,
        normalize body = inr events
        /\ existsb record_fails data = false
        /\ Forall2 record_event data events
        /\ (data = []
            \/ exists props,
                 parsed = VObj props
                 /\ own_property props "data" = VArr data)).
Proof.
  intros Hp. unfold normalize. rewrite Hp. cbn [bind ret].
  assert (Hempty : exists data events,
            mapM map_event [] = inr events
            /\ existsb record_fails data = false
            /\ Forall2 record_event data events
            /\ (data = []
                \/ exists props,
                     parsed = VObj props
                     /\ own_property props "data" = VArr data)).
  { exists [], []. repeat split; [constructor | now left]. }
  destruct parsed as [| |b|x|s|elems|props]; cbn [get_prop bind ret throw];
    try (split; [intros _; eexists; reflexivity | discriminate]);
    try (split; [discriminate | intros _; exact Hempty]).
  cbn [unusable_value]. unfold or_else.
  destruct (own_property props "data") as [| |b|x|s|data|ps] eqn:Ed;
    cbn [ToBoolean].
  - split; [discriminate | intros _; exact Hempty].
  - split; [discriminate | intros _; exact Hempty].
  - destruct b;
      [split; [intros _; eexists; reflexivity | discriminate]
      |split; [discriminate | intros _; exact Hempty]].
  - destruct (truthy_number x);
      [split; [intros _; eexists; reflexivity | discriminate]
      |split; [discriminate | intros _; exact Hempty]].
  - destruct (negb (String.eqb s ""));
      [split; [intros _; eexists; reflexivity | discriminate]
      |split; [discriminate | intros _; exact Hempty]].
  - split; [apply mapM_map_event_fails|].
    intros Hf. destruct (mapM_map_event_ok data Hf) as [events [He Hr]].
    exists data, events. repeat split; try assumption. right. eauto.
  - split; [intros _; eexists; reflexivity | discriminate].
Qed.

Lemma normalize_inv body events :
  normalize body = inr events ->
  exists parsed data,
    JSON_parse body = inr parsed
    /\ unusable_value parsed = false
    /\ existsb record_fails data = false
    /\ Forall2 record_event data events
    /\ (data = []
        \/ exists props,
             parsed = VObj props /\ own_property props "data" = VArr data).
Proof.
  intros H. destruct (JSON_parse body) as [m|parsed] eqn:Hp.
  { unfold normalize in H. rewrite Hp in H. discriminate. }
  destruct (normalize_parsed body parsed Hp) as [Hbad Hgood].
  destruct (unusable_value parsed) eqn:Hu.
  - destruct (Hbad eq_refl) as [err He]. congruence.
  - destruct (Hgood eq_refl) as [data [events' [He H']]].
    exists parsed, data. split; [reflexivity|]. split; [exact Hu|].
    assert (events' = events) by congruence. now subst.
Qed.

(** The key read as the code reads it. *)
Lemma no_api_key_true :
  no_api_key = true
  <-> DROPSTAB_API_KEY = None \/ DROPSTAB_API_KEY = Some ""%string.
Proof.
  unfold no_api_key. destruct DROPSTAB_API_KEY as [k|].
  - rewrite String.eqb_eq. split; [intros ->; now right|].
    intros [H|H]; congruence.
  - split; auto.
Qed.

Lemma no_api_key_false :
  no_api_key = false
  <-> exists key, DROPSTAB_API_KEY = Some key /\ key <> ""%string.
Proof.
  unfold no_api_key. destruct DROPSTAB_API_KEY as [k|].
  - rewrite String.eqb_neq. split; [eauto|].
    intros [key [H Hne]]. congruence.
  - split; [discriminate | intros [key [H _]]; discriminate].
Qed.

Lemma authorization_key key :
  DROPSTAB_API_KEY = Some key -> authorization = ("Bearer " ++ key)%string.
Proof. unfold authorization. now intros ->. Qed.

(** The promise once the request has been sent. *)
Lemma fetchRealUnlocks_sent key net :
  DROPSTAB_API_KEY = Some key -> key <> ""%string ->
  header_error ("Bearer " ++ key) = None ->
  fetchRealUnlocks net
  = match net with
    | NetError _ => Resolved None
    | NetResponse chunks =>
        match normalize (String.concat "" chunks) with
        | inr mapped => Resolved (Some mapped)
        | inl _ => Resolved None
        end
    | NetHang => Pending
    end.
Proof.
  intros Hk Hne Hh. unfold fetchRealUnlocks.
  rewrite (proj2 no_api_key_false) by eauto.
  now rewrite (authorization_key key Hk), Hh.
Qed.

Lemma fetchRealUnlocks_inv net events :
  fetchRealUnlocks net = Resolved (Some events) ->
  exists key chunks,
    DROPSTAB_API_KEY = Some key /\ key <> ""%string
    /\ header_error ("Bearer " ++ key) = None
    /\ net = NetResponse chunks
    /\ normalize (String.concat "" chunks) = inr events.
Proof.
  unfold fetchRealUnlocks.
  destruct no_api_key eqn:Hk; [discriminate|].
  apply no_api_key_false in Hk as [key [Hk Hne]].
  rewrite (authorization_key key Hk).
  destruct (header_error _) eqn:Hh; [discriminate|].
  destruct net as [err|chunks|]; try discriminate.
  destruct (normalize (String.concat "" chunks)) as [e|mapped] eqn:En;
    [discriminate|].
  intros [= <-]. exists key, chunks. auto.
Qed.

(** C6: a provider record [{coin, date, amount}] becomes one event with
    [token] the coin, [timestamp] the date followed by [T00:00:00Z],
    [amountUsd] the amount, or 0 when the amount is missing, and [shortable]
    false; the events come out one per record, in the order of the records.
    The date is any value that can be converted to a string, a string in
    particular.  The record of the specification's scenario becomes
    [{token: "BBB", timestamp: "2024-01-01T00:00:00Z", amountUsd: 5000,
    shortable: false}]. *)
Theorem map_event_spec (props : list (string * Value)) :
  (forall day : string,
     ToString (own_property props "date") = inr day ->
     map_event (VObj props)
     = inr {| m_token := own_property props "coin";
              m_timestamp := (day ++ "T00:00:00Z")%string;
              m_amountUsd := or_else (own_property props "amount") (VNum 0);
              m_shortable := false |})
  /\ (forall coin date : string,
        own_property props "coin" = VStr coin ->
        own_property props "date" = VStr date ->
        (own_property props "amount" = VUndefined ->
         map_event (VObj props)
         = inr {| m_token := VStr coin;
                  m_timestamp := (date ++ "T00:00:00Z")%string;
                  m_amountUsd := VNum 0; m_shortable := false |})
        /\ (forall amount : float,
              own_property props "amount" = VNum amount ->
              (truthy_number amount = true ->
               map_event (VObj props)
               = inr {| m_token := VStr coin;
                        m_timestamp := (date ++ "T00:00:00Z")%string;
                        m_amountUsd := VNum amount; m_shortable := false |})
              /\ (PrimFloat.eqb amount 0 = true ->
                  map_event (VObj props)
                  = inr {| m_token := VStr coin;
                           m_timestamp := (date ++ "T00:00:00Z")%string;
                           m_amountUsd := VNum 0; m_shortable := false |})))
  /\ (forall (key : string) (chunks : list string)
             (records : list (list (string * Value))),
        DROPSTAB_API_KEY = Some key -> key <> ""%string ->
        header_error ("Bearer " ++ key) = None ->
        JSON_parse (String.concat "" chunks)
        = inr (VObj [("data", VArr (map VObj records))]) ->
        Forall (fun r => convertible (own_property r "date") = true)
          records ->
        exists events,
          fetchRealUnlocks (NetResponse chunks) = Resolved (Some events)
          /\ Forall2
               (fun r e =>
                  exists day,
                    ToString (own_property r "date") = inr day
                    /\ e = {| m_token := own_property r "coin";
                              m_timestamp := (day ++ "T00:00:00Z")%string;
                              m_amountUsd :=
                                or_else (own_property r "amount") (VNum 0);
                              m_shortable := false |})
               records events)
  /\ map_event
       (VObj [("coin", VStr "BBB"); ("date", VStr "2024-01-01");
              ("amount", VNum 5000)])
     = inr {| m_token := VStr "BBB"; m_timestamp := "2024-01-01T00:00:00Z";
              m_amountUsd := VNum 5000; m_shortable := false |}.
Proof.
  assert (Hgen : forall r day,
            ToString (own_property r "date") = inr day ->
            map_event (VObj r)
            = inr {| m_token := own_property r "coin";
                     m_timestamp := (day ++ "T00:00:00Z")%string;
                     m_amountUsd := or_else (own_property r "amount") (VNum 0);
                     m_shortable := false |}).
  { intros r day Hd. rewrite map_event_object, Hd. reflexivity. }
  split; [apply Hgen|]. split; [|split; [|reflexivity]].
  - intros coin date Hc Hd.
    assert (Hs : ToString (own_property props "date") = inr date)
      by (now rewrite Hd).
    rewrite (Hgen props date Hs), Hc. split.
    + intros ->. reflexivity.
    + intros amount ->. unfold or_else. simpl ToBoolean. split.
      * intros ->. reflexivity.
      * intros Hz. unfold truthy_number. rewrite Hz. reflexivity.
  - intros key chunks records Hk Hne Hh Hparse Hconv.
    assert (Hmap : exists events,
              mapM map_event (map VObj records) = inr events
              /\ Forall2
                   (fun r e =>
                      exists day,
                        ToString (own_property r "date") = inr day
                        /\ e = {| m_token := own_property r "coin";
                                  m_timestamp := (day ++ "T00:00:00Z")%string;
                                  m_amountUsd :=
                                    or_else (own_property r "amount") (VNum 0);
                                  m_shortable := false |})
                   records events).
    { clear Hparse. induction Hconv as [|r records Hr Hrs IH].
      - exists []. split; [reflexivity | constructor].
      - destruct IH as [events [He Hf]].
        apply ToString_convertible in Hr as [day Hd].
        eexists. split.
        + cbn [map mapM]. rewrite (Hgen r day Hd), He. reflexivity.
        + constructor; [eauto | exact Hf]. }
    destruct Hmap as [events [He Hf]]. exists events. split; [|exact Hf].
    rewrite (fetchRealUnlocks_sent key _ Hk Hne Hh).
    unfold normalize. rewrite Hparse. cbn [bind ret].
    change (get_prop (VObj [("data", VArr (map VObj records))]) "data")
      with (@inr JSError Value (VArr (map VObj records))).
    cbn [bind ret]. unfold or_else. cbn [ToBoolean].
    now rewrite He.
Qed.

Lemma record_fails_spec ev :
  record_fails ev = true
  <-> ev = VNull \/ ev = VUndefined
      \/ convertible (param ev "date") = false.
Proof.
  destruct ev; cbn; rewrite ?negb_true_iff;
    (split;
     [ first [ discriminate | now auto ]
     | intros [H | [H | H]];
       first [ discriminate | reflexivity | exact H ] ]).
Qed.

Lemma unusable_value_spec parsed :
  unusable_value parsed = true
  <-> parsed = VNull \/ parsed = VUndefined
      \/ exists props,
           parsed = VObj props
           /\ ((ToBoolean (own_property props "data") = true
                /\ forall data, own_property props "data" <> VArr data)
               \/ exists data ev,
                    own_property props "data" = VArr data
                    /\ In ev data
                    /\ (ev = VNull \/ ev = VUndefined
                        \/ convertible (param ev "date") = false)).
Proof.
  destruct parsed as [| |b|x|s|elems|props]; cbn [unusable_value].
  1,2: split; auto.
  1-4: split; [discriminate|];
       intros [H | [H | [props [H _]]]]; discriminate.
  split.
  - intros H. right. right. exists props. split; [reflexivity|].
    destruct (own_property props "data") as [| |b|x|s|data|ps] eqn:Ed;
      try (left; split; [exact H | discriminate]).
    right. apply existsb_exists in H as [ev [Hin Hf]].
    exists data, ev. split; [reflexivity|]. split; [exact Hin|].
    now apply record_fails_spec.
  - intros [H | [H | [props' [Heq H]]]]; try discriminate.
    injection Heq as <-.
    destruct H as [[Ht Hna] | [data [ev [Hd [Hin Hf]]]]].
    + destruct (own_property props "data") as [| |b|x|s|data|ps];
        try exact Ht.
      now destruct (Hna data).
    + rewrite Hd. apply existsb_exists. exists ev.
      split; [exact Hin|]. now apply record_fails_spec.
Qed.

(** The promise, case by case. *)
Lemma fetchRealUnlocks_cases (net : Transport) :
  (DROPSTAB_API_KEY = None \/ DROPSTAB_API_KEY = Some ""%string ->
   fetchRealUnlocks net = Resolved None)
  /\ (forall key,
        DROPSTAB_API_KEY = Some key -> key <> ""%string ->
        header_error ("Bearer " ++ key) = None ->
        (forall e, fetchRealUnlocks net <> Rejected e)
        /\ (fetchRealUnlocks net = Resolved None
            <-> (exists err, net = NetError err)
                \/ (exists chunks,
                      net = NetResponse chunks
                      /\ ((exists m,
                             JSON_parse (String.concat "" chunks) = inl m)
                          \/ (exists parsed,
                                JSON_parse (String.concat "" chunks)
                                = inr parsed
                                /\ unusable_value parsed = true))))
        /\ (forall chunks parsed,
              net = NetResponse chunks ->
              JSON_parse (String.concat "" chunks) = inr parsed ->
              unusable_value parsed = false ->
              (exists events, fetchRealUnlocks net = Resolved (Some events))
              /\ (provider_shaped parsed = false ->
                  fetchRealUnlocks net = Resolved (Some [])))).
Proof.
  split.
  - intros Hk. unfold fetchRealUnlocks.
    now rewrite (proj2 no_api_key_true Hk).
  - intros key Hk Hne Hh.
    rewrite (fetchRealUnlocks_sent key net Hk Hne Hh).
    split; [|split].
    + intros e. destruct net as [err|chunks|]; try discriminate.
      destruct (normalize _); discriminate.
    + destruct net as [err|chunks|].
      * split; [eauto | reflexivity].
      * destruct (JSON_parse (String.concat "" chunks)) as [m|parsed] eqn:Hp.
        { unfold normalize. rewrite Hp. cbn. split; [|reflexivity].
          intros _. right. exists chunks. split; [reflexivity|].
          left. rewrite Hp. eauto. }
        destruct (normalize_parsed _ parsed Hp) as [Hbad Hgood].
        destruct (unusable_value parsed) eqn:Hu.
        -- destruct (Hbad eq_refl) as [err ->]. split; [|reflexivity].
           intros _. right. exists chunks. split; [reflexivity|].
           right. rewrite Hp. eauto.
        -- destruct (Hgood eq_refl) as [data [events [-> _]]].
           split; [discriminate|].
           intros [[err H] | [chunks' [H [[m Hm] | [p [Hp' Hu']]]]]];
             try discriminate; injection H as <-; congruence.
      * split; [discriminate|].
        intros [[err H] | [chunks [H _]]]; discriminate.
    + intros chunks parsed -> Hp Hu.
      destruct (normalize_parsed _ parsed Hp) as [_ Hgood].
      destruct (Hgood Hu) as [data [events [Hn [_ [Hr Hd]]]]].
      rewrite Hn. split; [eauto|].
      intros Hshape. destruct Hd as [-> | [props [-> Hd]]].
      * inversion Hr. reflexivity.
      * cbn in Hshape. rewrite Hd in Hshape. discriminate.
Qed.

(** C7: [fetchRealUnlocks] resolves with [null] when no API key is
    configured (the variable is unset or empty).  With a key that
    [https.request] accepts, the promise is never rejected, and it resolves
    with [null] exactly when the request emits an error, or the response body
    is not JSON, or is the JSON of [null], or of an object whose [data] is a
    truthy value other than an array, or of an object whose [data] is an
    array with an element that is [null] or whose date cannot be converted
    to a string.  Every other body gives a sequence of events: the empty one
    when the body has no [data] array ([{}], a number, a string). *)
Theorem fetchRealUnlocks_absent (net : Transport) :
  let unusable (parsed : Value) : Prop :=
    parsed = VNull \/ parsed = VUndefined
    \/ exists props,
         parsed = VObj props
         /\ ((ToBoolean (own_property props "data") = true
              /\ forall data, own_property props "data" <> VArr data)
             \/ exists data ev,
                  own_property props "data" = VArr data
                  /\ In ev data
                  /\ (ev = VNull \/ ev = VUndefined
                      \/ convertible (param ev "date") = false)) in
  (DROPSTAB_API_KEY = None \/ DROPSTAB_API_KEY = Some ""%string ->
   fetchRealUnlocks net = Resolved None)
  /\ (forall key,
        DROPSTAB_API_KEY = Some key -> key <> ""%string ->
        header_error ("Bearer " ++ key) = None ->
        (forall e, fetchRealUnlocks net <> Rejected e)
        /\ (fetchRealUnlocks net = Resolved None
            <-> (exists err, net = NetError err)
                \/ (exists chunks,
                      net = NetResponse chunks
                      /\ ((exists m,
                             JSON_parse (String.concat "" chunks) = inl m)
                          \/ (exists parsed,
                                JSON_parse (String.concat "" chunks)
                                = inr parsed
                                /\ unusable parsed))))
        /\ (forall chunks parsed,
              net = NetResponse chunks ->
              JSON_parse (String.concat "" chunks) = inr parsed ->
              ~ unusable parsed ->
              (exists events, fetchRealUnlocks net = Resolved (Some events))
              /\ ((forall props data,
                     parsed = VObj props ->
                     own_property props "data" <> VArr data) ->
                  fetchRealUnlocks net = Resolved (Some [])))).
Proof.
  intros unusable.
  assert (Hspec : forall parsed,
            unusable_value parsed = true <-> unusable parsed)
    by (intros parsed; apply unusable_value_spec).
  destruct (fetchRealUnlocks_cases net) as [Hnokey Hkey].
  split; [exact Hnokey|].
  intros key Hk Hne Hh.
  destruct (Hkey key Hk Hne Hh) as [Hrej [Hiff Hgood]].
  split; [exact Hrej|]. split.
  - rewrite Hiff. split.
    + intros [He | [chunks [Hn [Hm | [parsed [Hp Hu]]]]]].
      * now left.
      * right. exists chunks. split; [exact Hn|]. now left.
      * right. exists chunks. split; [exact Hn|]. right.
        exists parsed. split; [exact Hp|]. now apply Hspec.
    + intros [He | [chunks [Hn [Hm | [parsed [Hp Hu]]]]]].
      * now left.
      * right. exists chunks. split; [exact Hn|]. now left.
      * right. exists chunks. split; [exact Hn|]. right.
        exists parsed. split; [exact Hp|]. now apply Hspec.
  - intros chunks parsed Hn Hp Hu.
    assert (Hu' : unusable_value parsed = false).
    { destruct (unusable_value parsed) eqn:E; [|reflexivity].
      destruct Hu. now apply Hspec. }
    destruct (Hgood chunks parsed Hn Hp Hu') as [Hev Hempty].
    split; [exact Hev|].
    intros Hnodata. apply Hempty.
    destruct parsed as [| |b|x|s|elems|props]; try reflexivity.
    cbn. destruct (own_property props "data") as [| |b|x|s|data|ps] eqn:Ed;
      try reflexivity.
    now destruct (Hnodata props data eq_refl).
Qed.

(** C8: [GET /api/unlocks] answers when the promise of the normalizer is
    resolved, and then with 200; when the normalizer gives [null] or an empty
    array the body is [unlocks] itself, otherwise the body is what the
    normalizer gave, with nothing of [unlocks] in it. *)
Theorem api_unlocks_fallback (net : Transport) :
  ((exists realData, fetchRealUnlocks net = Resolved realData) ->
   exists result,
     api_unlocks net = Some {| statusCode := 200; body := result |}
     /\ (fetchRealUnlocks net = Resolved None -> result = BodyUnlocks unlocks)
     /\ (fetchRealUnlocks net = Resolved (Some []) ->
         result = BodyUnlocks unlocks)
     /\ (forall realData,
           fetchRealUnlocks net = Resolved (Some realData) ->
           realData <> [] -> result = BodyMapped realData))
  /\ (forall r,
        api_unlocks net = Some r ->
        exists realData, fetchRealUnlocks net = Resolved realData).
Proof.
  unfold api_unlocks. split.
  - intros [realData ->].
    destruct realData as [[|ev evs]|]; eexists; (split; [reflexivity|]).
    + split; [discriminate|]. split; [reflexivity|].
      intros realData Heq H. injection Heq as <-. now destruct H.
    + split; [discriminate|]. split; [discriminate|].
      intros realData Heq _. injection Heq as <-. reflexivity.
    + split; [reflexivity|]. split; discriminate.
  - intros r. destruct (fetchRealUnlocks net); [eauto | discriminate..].
Qed.

(** X8: every event the normalizer produces has [shortable] false, a
    [timestamp] that ends in [T00:00:00Z], and an [amountUsd] that is either
    the record's truthy amount or the number 0 (never [undefined], [null],
    NaN or an empty string); and events are produced only from a response
    received with an API key configured. *)
Theorem fetchRealUnlocks_events_shape (net : Transport)
    (events : list MappedEvent) :
  fetchRealUnlocks net = Resolved (Some events) ->
  no_api_key = false
  /\ (exists key, DROPSTAB_API_KEY = Some key /\ key <> ""%string)
  /\ (exists chunks, net = NetResponse chunks)
  /\ Forall (fun e =>
               m_shortable e = false
               /\ (exists d, m_timestamp e = (d ++ "T00:00:00Z")%string)
               /\ (ToBoolean (m_amountUsd e) = true
                   \/ m_amountUsd e = VNum 0))
       events.
Proof.
  intros H.
  apply fetchRealUnlocks_inv in H
    as [key [chunks [Hk [Hne [Hh [Hn Hnorm]]]]]].
  split; [apply no_api_key_false; eauto|]. split; [eauto|].
  split; [now exists chunks|].
  apply normalize_inv in Hnorm as [parsed [data [_ [_ [_ [Hr _]]]]]].
  induction Hr as [|ev e data events [day [_ ->]] _ IH]; constructor;
    [|exact IH].
  unfold event_of_record. cbn. split; [reflexivity|]. split; [eauto|].
  unfold or_else.
  destruct (ToBoolean (param ev "amount")) eqn:Ht; [now left | now right].
Qed.

(** When the [then] callback of the route never runs. *)
Lemma api_unlocks_none net :
  api_unlocks net = None
  <-> exists key,
        DROPSTAB_API_KEY = Some key /\ key <> ""%string
        /\ (header_error ("Bearer " ++ key) <> None \/ net = NetHang).
Proof.
  unfold api_unlocks, fetchRealUnlocks.
  destruct no_api_key eqn:Hk.
  { split; [discriminate|]. intros [key [Hkey [Hne _]]].
    apply no_api_key_true in Hk as [Hk|Hk]; congruence. }
  apply no_api_key_false in Hk as [key [Hk Hne]].
  rewrite (authorization_key key Hk).
  destruct (header_error ("Bearer " ++ key)) as [m|] eqn:Hh.
  { split; [|reflexivity]. intros _. exists key.
    split; [exact Hk|]. split; [exact Hne|]. left. congruence. }
  destruct net as [err|chunks|].
  - split; [discriminate|].
    intros [key' [Hk' [_ [H|H]]]]; [|discriminate].
    assert (key' = key) by congruence. subst. congruence.
  - destruct (normalize _) as [e|[|ev evs]];
      (split; [discriminate|]);
      intros [key' [Hk' [_ [H|H]]]]; try discriminate;
      assert (key' = key) by congruence; subst; congruence.
  - split; [|reflexivity]. intros _. exists key. auto.
Qed.

(** X9: [GET /api/unlocks] answers with 200 and either the local events or
    a non-empty list of remote events, whenever it answers.  It does not
    answer exactly when a key is configured and either [https.request]
    refuses it or the provider never completes a response.  It answers with
    remote events exactly when a key is configured and accepted and the
    response body parses to an object whose [data] is a non-empty array in
    which no element is [null] or has a date that cannot be converted to a
    string; the events are then those of the elements, in order. *)
Theorem api_unlocks_remote_iff (net : Transport) :
  (forall r,
     api_unlocks net = Some r ->
     statusCode r = 200%Z
     /\ (body r = BodyUnlocks unlocks
         \/ exists ev evs, body r = BodyMapped (ev :: evs)))
  /\ (api_unlocks net = None
      <-> exists key,
            DROPSTAB_API_KEY = Some key /\ key <> ""%string
            /\ (header_error ("Bearer " ++ key) <> None \/ net = NetHang))
  /\ (forall events,
        api_unlocks net
        = Some {| statusCode := 200; body := BodyMapped events |}
        <-> exists key chunks props data,
              DROPSTAB_API_KEY = Some key /\ key <> ""%string
              /\ header_error ("Bearer " ++ key) = None
              /\ net = NetResponse chunks
              /\ JSON_parse (String.concat "" chunks) = inr (VObj props)
              /\ own_property props "data" = VArr data
              /\ data <> []
              /\ Forall (fun ev =>
                           ev <> VNull /\ ev <> VUndefined
                           /\ convertible (param ev "date") = true) data
              /\ Forall2
                   (fun ev e =>
                      exists day,
                        ToString (param ev "date") = inr day
                        /\ e = {| m_token := param ev "coin";
                                  m_timestamp := (day ++ "T00:00:00Z")%string;
                                  m_amountUsd :=
                                    or_else (param ev "amount") (VNum 0);
                                  m_shortable := false |})
                   data events).
Proof.
  assert (Hfails : forall data,
            existsb record_fails data = false
            <-> Forall (fun ev =>
                          ev <> VNull /\ ev <> VUndefined
                          /\ convertible (param ev "date") = true) data).
  { induction data as [|ev data IH]; simpl.
    - split; [constructor | reflexivity].
    - rewrite orb_false_iff, Forall_cons, IH.
      assert (Hev : record_fails ev = false
                    <-> ev <> VNull /\ ev <> VUndefined
                        /\ convertible (param ev "date") = true).
      { destruct ev; cbn; rewrite ?negb_false_iff;
          (split;
           [first [discriminate
                  | intros H; repeat split; first [discriminate | exact H]
                  | intros _; repeat split; first [discriminate | reflexivity]]
           |intros [H1 [H2 H3]]; first [congruence | exact H3 | reflexivity]]). }
      now rewrite Hev. }
  split; [|split].
  - unfold api_unlocks. intros r.
    destruct (fetchRealUnlocks net) as [[[|ev evs]|]| |]; try discriminate;
      intros [= <-]; cbn; split; eauto.
  - apply api_unlocks_none.
  - intros events. split.
    + unfold api_unlocks.
      destruct (fetchRealUnlocks net) as [realData| |] eqn:Hf;
        try discriminate.
      destruct realData as [[|ev evs]|]; try discriminate.
      intros [= <-].
      apply fetchRealUnlocks_inv in Hf
        as [key [chunks [Hk [Hne [Hh [-> Hnorm]]]]]].
      apply normalize_inv in Hnorm
        as [parsed [data [Hp [_ [Hr [He [-> | [props [-> Hd]]]]]]]]].
      { inversion He. }
      exists key, chunks, props, data.
      repeat split; try assumption.
      * intros ->. inversion He.
      * now apply Hfails.
    + intros [key [chunks [props [data
        [Hk [Hne [Hh [-> [Hp [Hd [Hnon [Hok Hev]]]]]]]]]]]].
      unfold api_unlocks.
      rewrite (fetchRealUnlocks_sent key _ Hk Hne Hh).
      apply Hfails in Hok.
      destruct (normalize_parsed _ _ Hp) as [_ Hgood].
      destruct Hgood as [data' [events' [Hn [_ [Hr' Hd']]]]].
      { cbn. now rewrite Hd. }
      rewrite Hn.
      assert (data' = data).
      { destruct Hd' as [-> | [props' [Heq Hd'']]].
        - exfalso. unfold normalize in Hn. rewrite Hp in Hn.
          cbn in Hn. rewrite Hd in Hn. unfold or_else in Hn. cbn in Hn.
          apply mapM_map_event_inv in Hn as [_ Hn]. inversion Hr'. subst.
          inversion Hn. subst. now destruct Hnon.
        - injection Heq as <-. congruence. }
      subst data'.
      assert (events' = events).
      { clear - Hr' Hev. revert events Hev.
        induction Hr' as [|ev e data es [day [Hday ->]] _ IH];
          intros events Hev; inversion Hev as [|? e' ? es' [day' [Hday' ->]] Hes];
          subst; [reflexivity|].
        f_equal; [|now apply IH].
        unfold event_of_record. congruence. }
      subst events'.
      destruct events as [|e es]; [|reflexivity].
      inversion Hev. subst. now destruct Hnon.
Qed.

End Normalizer.

(** ** The backtest, continued *)

Section Backtest2.
Context {rt : Runtime} {G : Globals}.

Lemma getPrice_loop_nan series ts :
  PrimFloat.is_nan ts = true -> getPrice_loop series ts None = None.
Proof.
  intros Hnan. destruct series as [|p rest]; [reflexivity|].
  simpl. now rewrite float_leb_nan_r.
Qed.

Lemma getPrice_nan token ts r :
  PrimFloat.is_nan ts = true -> getPrice token ts = inr r -> r = None.
Proof.
  intros Hnan H. destruct r as [x|]; [|reflexivity].
  apply getPrice_some_inv in H as [key [series [_ [_ H]]]].
  rewrite getPrice_loop_nan in H by assumption. discriminate.
Qed.

Lemma getPrice_loop_add_zero series t price :
  getPrice_loop series (t + 0) price = getPrice_loop series t price.
Proof.
  revert price. induction series as [|p rest IH]; intros price;
    [reflexivity|].
  simpl. rewrite float_leb_add_zero, IH. reflexivity.
Qed.

Lemma getPrice_add_zero token t :
  getPrice token (t + 0) = getPrice token t.
Proof.
  unfold getPrice. destruct (ToPropertyKey token) as [e|key]; [reflexivity|].
  cbn [bind]. destruct (priceSeries_get key) as [series|[[|n]|]|];
    try reflexivity.
  cbn [ret]. now rewrite getPrice_loop_add_zero.
Qed.

Lemma backtest_step_same_instant token acc ev acc' :
  backtest_step token 0 0 acc ev = inr acc' -> t_wins acc' = t_wins acc.
Proof.
  intros H.
  apply backtest_step_inv in H as [[_ ->] | [_ [b [s [Hb [Hs ->]]]]]];
    [reflexivity|].
  unfold buyTs, sellTs in Hb, Hs.
  change (0 * 3600 * 1000)%float with 0%float in Hb, Hs.
  rewrite float_sub_zero in Hb. rewrite getPrice_add_zero in Hs.
  assert (s = b) by congruence. subst s.
  cbn. now rewrite float_same_price_roi.
Qed.

Lemma forEach_backtest_step_same_instant token events acc acc' :
  forEach (backtest_step token 0 0) events acc = inr acc' ->
  t_wins acc' = t_wins acc.
Proof.
  revert acc. induction events as [|ev events IH]; intros acc H.
  - now injection H as <-.
  - simpl in H.
    destruct (backtest_step token 0 0 acc ev) as [e|a] eqn:Es;
      [discriminate|].
    simpl in H. rewrite (IH a H). now apply backtest_step_same_instant in Es.
Qed.

Lemma backtest_same_instant token result :
  backtest token 0 0 = inr result -> winRate result = 0%float.
Proof.
  unfold backtest.
  destruct (backtest_totals token 0 0 (events_of token)) as [e|acc] eqn:E;
    [discriminate|].
  intros [= <-]. unfold backtest_totals in E.
  apply forEach_backtest_step_same_instant in E. cbn in E.
  unfold summarize. cbn [winRate]. rewrite E.
  destruct (PrimFloat.ltb 0 _) eqn:Hpos; [|reflexivity].
  now apply float_zero_div_pos.
Qed.

Lemma forEach_backtest_step_trades token hb ha events acc acc' :
  forEach (backtest_step token hb ha) events acc = inr acc' ->
  t_trades acc'
  = Nat.iter
      (length (List.filter (fun ev => negb (uncovered token hb ha ev)) events))
      (fun n => (n + 1)%float) (t_trades acc).
Proof.
  revert acc. induction events as [|ev events IH]; intros acc H.
  - now injection H as <-.
  - simpl in H.
    destruct (backtest_step token hb ha acc ev) as [e|a] eqn:Es;
      [discriminate|].
    simpl in H. rewrite (IH a H). simpl.
    apply backtest_step_inv in Es as [[-> ->] | [-> [b [s [_ [_ ->]]]]]].
    + reflexivity.
    + simpl.
      exact (Nat.iter_swap _ _ (fun n => (n + 1)%float) (t_trades acc)).
Qed.

(** X3: an unlock event whose timestamp [Date.parse] cannot read (NaN) has
    neither a buy price nor a sell price, whatever the offsets: [getPrice]
    returns no number for it, and a step that returns leaves the counters as
    they were.  When [getPrice] returns for the token at all, the step
    returns, with both prices [undefined]. *)
Theorem backtest_skips_unparseable_timestamp (token : Value)
    (hoursBefore hoursAfter : float) (acc : Totals) (ev : UnlockEvent) :
  PrimFloat.is_nan (Date_parse (u_timestamp ev)) = true ->
  (forall x, getPrice token (buyTs hoursBefore ev) <> inr (Some x))
  /\ (forall x, getPrice token (sellTs hoursAfter ev) <> inr (Some x))
  /\ (forall acc',
        backtest_step token hoursBefore hoursAfter acc ev = inr acc' ->
        acc' = acc)
  /\ (forall t r,
        getPrice token t = inr r ->
        getPrice token (buyTs hoursBefore ev) = inr None
        /\ getPrice token (sellTs hoursAfter ev) = inr None
        /\ backtest_step token hoursBefore hoursAfter acc ev = inr acc).
Proof.
  intros Hnan.
  assert (Hb : PrimFloat.is_nan (buyTs hoursBefore ev) = true)
    by (unfold buyTs; now apply float_sub_nan_l).
  assert (Hs : PrimFloat.is_nan (sellTs hoursAfter ev) = true)
    by (unfold sellTs; now apply float_add_nan_l).
  assert (Hnb : forall x, getPrice token (buyTs hoursBefore ev)
                          <> inr (Some x)).
  { intros x H. apply getPrice_nan in H; [discriminate | exact Hb]. }
  assert (Hns : forall x, getPrice token (sellTs hoursAfter ev)
                          <> inr (Some x)).
  { intros x H. apply getPrice_nan in H; [discriminate | exact Hs]. }
  split; [exact Hnb|]. split; [exact Hns|]. split.
  - intros acc' H.
    apply backtest_step_inv in H as [[_ ->] | [_ [b [s [H _]]]]];
      [reflexivity|].
    now destruct (Hnb b).
  - intros t r H.
    destruct (getPrice_returns_indep _ _ (buyTs hoursBefore ev) _ H)
      as [rb Erb].
    destruct (getPrice_returns_indep _ _ (sellTs hoursAfter ev) _ H)
      as [rs Ers].
    pose proof (getPrice_nan _ _ _ Hb Erb). subst rb.
    pose proof (getPrice_nan _ _ _ Hs Ers). subst rs.
    split; [exact Erb|]. split; [exact Ers|].
    unfold backtest_step. now rewrite Erb, Ers.
Qed.

(** X4: the events that lack a buy price or a sell price have no effect on
    the counters: the counters over a list of events are the counters over
    the covered events of that list. *)
Theorem backtest_totals_covered_only (token : Value)
    (hoursBefore hoursAfter : float) (events : list UnlockEvent) :
  backtest_totals token hoursBefore hoursAfter events
  = backtest_totals token hoursBefore hoursAfter
      (List.filter (fun ev => negb (uncovered token hoursBefore hoursAfter ev))
         events).
Proof.
  unfold backtest_totals.
  generalize {| t_trades := 0; t_wins := 0; t_totalRoi := 0 |}.
  induction events as [|ev events IH]; intros acc; [reflexivity|].
  simpl. destruct (uncovered token hoursBefore hoursAfter ev) eqn:Hu; simpl.
  - rewrite backtest_step_uncovered by assumption. apply IH.
  - destruct (backtest_step token hoursBefore hoursAfter acc ev) as [e|a];
      [reflexivity|]. apply IH.
Qed.

(** X5: with both offsets 0 (the value a missing offset is replaced by) the
    buy and the sell price of an event are the same price, so no trade is
    ever a win: whenever the counters are computed [wins] is 0, and whenever
    [backtest] returns a result its [winRate] is 0.  A request with a truthy
    token and no offsets is answered with that result, when there is one;
    and there is one for every token that has a price series of its own. *)
Theorem backtest_same_instant_never_wins (token : Value) :
  (forall events acc,
     backtest_totals token 0 0 events = inr acc -> t_wins acc = 0%float)
  /\ (forall result,
        backtest token 0 0 = inr result -> winRate result = 0%float)
  /\ (forall chunks params,
        JSON_parse (String.concat "" chunks) = inr params ->
        params <> VNull -> params <> VUndefined ->
        param params "token" = token ->
        ToBoolean token = true ->
        param params "hoursBefore" = VUndefined ->
        param params "hoursAfter" = VUndefined ->
        forall result,
          backtest token 0 0 = inr result ->
          api_backtest chunks
          = {| statusCode := 200; body := BodyBacktest result |}
          /\ winRate result = 0%float)
  /\ (forall name series,
        token = VStr name -> priceSeries !! name = Some series ->
        exists result,
          backtest token 0 0 = inr result /\ winRate result = 0%float).
Proof.
  split; [|split; [|split]].
  - intros events acc H. unfold backtest_totals in H.
    now apply forEach_backtest_step_same_instant in H.
  - apply backtest_same_instant.
  - intros chunks params Hp Hnull Hundef Htok Ht Hhb Hha result Hr.
    split; [|now apply backtest_same_instant in Hr].
    rewrite (api_backtest_run chunks params nan nan Hp Hnull Hundef)
      by (rewrite ?Hhb, ?Hha; reflexivity).
    rewrite Htok, Ht.
    change (or_zero nan) with 0%float. now rewrite Hr.
  - intros name series -> Hs.
    destruct (backtest_returns (VStr name) 0 0) as [result Hr].
    { right. intros name' n [= <-]. congruence. }
    exists result. split; [exact Hr | now apply backtest_same_instant in Hr].
Qed.

(** X6: a token that is not a string matches no unlock event, so
    [backtest] returns [{trades: 0, winRate: 0, avgRoi: 0}] for it; and
    [POST /api/backtest] accepts such a token when it is truthy (a number, an
    array, an object) and answers 200 with that result, provided the two
    offsets can be converted to numbers. *)
Theorem backtest_non_string_token (token : Value)
    (hoursBefore hoursAfter : float) :
  (forall s, token <> VStr s) ->
  events_of token = []
  /\ backtest token hoursBefore hoursAfter = inr no_trades
  /\ (forall chunks params,
        JSON_parse (String.concat "" chunks) = inr params ->
        params <> VNull -> params <> VUndefined ->
        param params "token" = token ->
        ToBoolean token = true ->
        convertible (param params "hoursBefore") = true ->
        convertible (param params "hoursAfter") = true ->
        api_backtest chunks
        = {| statusCode := 200; body := BodyBacktest no_trades |}).
Proof.
  intros Hns. pose proof (events_of_not_string token Hns) as He.
  assert (Hb : forall hb ha, backtest token hb ha = inr no_trades)
    by (intros hb ha; unfold backtest; now rewrite He).
  split; [exact He|]. split; [apply Hb|].
  intros chunks params Hp Hnull Hundef Htok Ht Hcb Hca.
  apply ToNumber_convertible in Hcb as [nb Hnb].
  apply ToNumber_convertible in Hca as [na Hna].
  rewrite (api_backtest_run chunks params nb na) by assumption.
  now rewrite Htok, Ht, Hb.
Qed.

(** X7: [POST /api/backtest] answers 200 with a result or 400 with an error
    message.  It answers 200 exactly when the body parses to a value other
    than [null] whose two offsets can be converted to numbers and whose
    [token] is truthy, except when the token is the string of some unlock
    event, has no price series, and is the name of a function with
    parameters that objects inherit ([constructor], [hasOwnProperty], ...):
    then [getPrice] throws and the answer is 400. *)
Theorem api_backtest_status (chunks : list string) :
  ((statusCode (api_backtest chunks) = 200%Z
    /\ exists result, body (api_backtest chunks) = BodyBacktest result)
   \/ (statusCode (api_backtest chunks) = 400%Z
       /\ exists m, body (api_backtest chunks) = BodyError m))
  /\ (statusCode (api_backtest chunks) = 200%Z
      <-> exists params,
            JSON_parse (String.concat "" chunks) = inr params
            /\ params <> VNull /\ params <> VUndefined
            /\ convertible (param params "hoursBefore") = true
            /\ convertible (param params "hoursAfter") = true
            /\ ToBoolean (param params "token") = true
            /\ ~ (events_of (param params "token") <> []
                  /\ exists name n,
                       param params "token" = VStr name
                       /\ priceSeries !! name = None
                       /\ Object_prototype name
                          = Some (BuiltinFunction (S n)))).
Proof.
  split; [apply api_backtest_200_or_400|].
  destruct (JSON_parse (String.concat "" chunks)) as [m|params] eqn:Hp.
  { unfold api_backtest, api_backtest_try. rewrite Hp. cbn.
    split; [discriminate | intros [params [H _]]; discriminate]. }
  assert (Hnull : params = VNull \/ params = VUndefined
                  \/ (params <> VNull /\ params <> VUndefined)).
  { destruct params; auto; right; right; split; discriminate. }
  destruct Hnull as [-> | [-> | [Hnull Hundef]]].
  1,2: unfold api_backtest, api_backtest_try; rewrite Hp; cbn;
       (split; [discriminate|]);
       intros [params [H [Hn [Hu _]]]]; injection H as <-; congruence.
  destruct (convertible (param params "hoursBefore")) eqn:Cb.
  2: { destruct (api_backtest_unconvertible chunks params) as [m ->]; auto.
       cbn. split; [discriminate|].
       intros [params' [H [_ [_ [Cb' _]]]]]. injection H as <-. congruence. }
  destruct (convertible (param params "hoursAfter")) eqn:Ca.
  2: { destruct (api_backtest_unconvertible chunks params) as [m ->]; auto.
       cbn. split; [discriminate|].
       intros [params' [H [_ [_ [_ [Ca' _]]]]]]. injection H as <-.
       congruence. }
  pose proof Cb as Cb'. pose proof Ca as Ca'.
  apply ToNumber_convertible in Cb' as [nb Hnb].
  apply ToNumber_convertible in Ca' as [na Hna].
  rewrite (api_backtest_run chunks params nb na) by assumption.
  destruct (ToBoolean (param params "token")) eqn:Ht.
  2: { cbn. split; [discriminate|].
       intros [params' [H [_ [_ [_ [_ [Ht' _]]]]]]]. injection H as <-.
       congruence. }
  destruct (backtest (param params "token") (or_zero nb) (or_zero na))
    as [e|result] eqn:Eb; cbn.
  - split; [discriminate|].
    intros [params' [H [_ [_ [_ [_ [_ Hno]]]]]]]. injection H as <-.
    destruct Hno. apply (backtest_throws_iff _ (or_zero nb) (or_zero na)).
    eauto.
  - split; [intros _|reflexivity].
    exists params. repeat split; try assumption.
    intros Hthrows.
    apply (backtest_throws_iff _ (or_zero nb) (or_zero na)) in Hthrows
      as [e He].
    congruence.
Qed.

(** X16: when [backtest] returns, [trades] is 0 incremented once per event
    that has both a buy and a sell price: the events without price coverage
    are not counted, and nothing else is.  [backtest] returns unless the
    token is the string of some unlock event, has no price series, and is
    the name of an inherited function with parameters. *)
Theorem backtest_trades_count (token : Value)
    (hoursBefore hoursAfter : float) :
  (forall result,
     backtest token hoursBefore hoursAfter = inr result ->
     trades result
     = Nat.iter
         (length
            (List.filter
               (fun ev => negb (uncovered token hoursBefore hoursAfter ev))
               (events_of token)))
         (fun n => (n + 1)%float) 0%float)
  /\ ((exists result, backtest token hoursBefore hoursAfter = inr result)
      <-> ~ (events_of token <> []
             /\ exists name n,
                  token = VStr name
                  /\ priceSeries !! name = None
                  /\ Object_prototype name = Some (BuiltinFunction (S n)))).
Proof.
  split.
  - intros result. unfold backtest.
    destruct (backtest_totals token hoursBefore hoursAfter (events_of token))
      as [e|acc] eqn:E; [discriminate|].
    intros [= <-]. unfold backtest_totals in E.
    apply forEach_backtest_step_trades in E. exact E.
  - rewrite <- backtest_throws_iff. split.
    + intros [result Hr] [e He]. rewrite Hr in He. discriminate.
    + intros Hno.
      destruct (backtest token hoursBefore hoursAfter) as [e|result];
        [destruct Hno|]; eauto.
Qed.

End Backtest2.

(** ** The shortable route, the token route and the request handler *)

Section Routes.
Context {rt : Runtime} {G : Globals} {node : Node}.

Lemma set_add_elem seen x y : y ∈ set_add seen x <-> y ∈ seen \/ y = x.
Proof.
  unfold set_add. case_bool_decide as Hx.
  - split; [auto|]. intros [H | ->]; assumption.
  - rewrite elem_of_app, list_elem_of_singleton. reflexivity.
Qed.

Lemma set_add_NoDup seen x : NoDup seen -> NoDup (set_add seen x).
Proof.
  intros Hnd. unfold set_add. case_bool_decide as Hx; [assumption|].
  apply NoDup_app. repeat split; [assumption| |apply NoDup_singleton].
  intros y Hy Hy'. apply list_elem_of_singleton in Hy'. now subst.
Qed.

Lemma fold_set_add_elem xs seen y :
  y ∈ fold_left set_add xs seen <-> y ∈ seen \/ y ∈ xs.
Proof.
  revert seen. induction xs as [|x xs IH]; intros seen; simpl.
  - rewrite elem_of_nil. tauto.
  - rewrite IH, set_add_elem, elem_of_cons. tauto.
Qed.

Lemma fold_set_add_NoDup xs seen :
  NoDup seen -> NoDup (fold_left set_add xs seen).
Proof.
  revert seen. induction xs as [|x xs IH]; intros seen Hnd; simpl.
  - assumption.
  - apply IH. now apply set_add_NoDup.
Qed.

Lemma array_from_set_elem xs y : y ∈ array_from_set xs <-> y ∈ xs.
Proof.
  unfold array_from_set. rewrite fold_set_add_elem, elem_of_nil. tauto.
Qed.

Lemma array_from_set_snoc xs y :
  array_from_set (xs ++ [y])
  = if bool_decide (y ∈ xs) then array_from_set xs
    else array_from_set xs ++ [y].
Proof.
  unfold array_from_set at 1. rewrite fold_left_app. simpl.
  fold (array_from_set xs). unfold set_add.
  rewrite (bool_decide_ext _ _ (array_from_set_elem xs y)). reflexivity.
Qed.

Lemma existsb_filter_shortable tok :
  existsb u_shortable
    (List.filter (fun u => String.eqb (u_token u) tok) unlocks) = true
  <-> exists u, u ∈ unlocks /\ u_token u = tok /\ u_shortable u = true.
Proof.
  rewrite existsb_exists. split.
  - intros [u [Hin Hs]]. apply filter_In in Hin as [Hin Ht].
    apply String.eqb_eq in Ht. exists u. rewrite list_elem_of_In. auto.
  - intros [u [Hin [Ht Hs]]]. exists u. split; [|exact Hs].
    apply filter_In. rewrite <- list_elem_of_In.
    split; [exact Hin|]. now apply String.eqb_eq.
Qed.

(** A token without samples of its own and without an inherited name has
    no price. *)
Lemma getPrice_no_series tok ts :
  td_priceSeries (api_token tok) = FoundSeries [] ->
  getPrice (VStr tok) ts = inr None.
Proof.
  unfold api_token, getPrice. cbn [td_priceSeries ToPropertyKey ToString bind
                                    ret].
  destruct (priceSeries_get tok) as [series|[[|n]|]|]; try discriminate.
  - now intros [= ->].
  - reflexivity.
Qed.

Lemma strip_prefix_spec p s r :
  strip_prefix p s = Some r <-> s = (p ++ r)%string.
Proof.
  revert s. induction p as [|a p IH]; intros s; simpl.
  - split; [now intros [= ->] | now intros ->].
  - destruct s as [|b s]; [split; discriminate|].
    destruct (Ascii.eqb_spec a b) as [->|Hne].
    + rewrite IH. split; [now intros -> | now intros [= ->]].
    + split; [discriminate | intros [= Hb _]; congruence].
Qed.

(** The class [[A-Za-z0-9_-]] by character codes. *)
Lemma token_char_spec c :
  token_char c = true
  <-> (65 <= nat_of_ascii c <= 90 \/ 97 <= nat_of_ascii c <= 122
       \/ 48 <= nat_of_ascii c <= 57
       \/ c = "_"%char \/ c = "-"%char).
Proof.
  unfold token_char. cbv zeta.
  rewrite !orb_true_iff, !andb_true_iff, !Nat.leb_le, !Nat.eqb_eq.
  assert (H95 : nat_of_ascii c = 95 <-> c = "_"%char).
  { split; [|now intros ->].
    intros H. rewrite <- (ascii_nat_embedding c), H. reflexivity. }
  assert (H45 : nat_of_ascii c = 45 <-> c = "-"%char).
  { split; [|now intros ->].
    intros H. rewrite <- (ascii_nat_embedding c), H. reflexivity. }
  rewrite H95, H45. tauto.
Qed.

Lemma match_token_url_spec u tok :
  match_token_url u = Some tok
  <-> u = ("/api/token/" ++ tok)%string
      /\ tok <> ""%string
      /\ forall c,
           In c (String.list_ascii_of_string tok) ->
           65 <= nat_of_ascii c <= 90 \/ 97 <= nat_of_ascii c <= 122
           \/ 48 <= nat_of_ascii c <= 57
           \/ c = "_"%char \/ c = "-"%char.
Proof.
  assert (Hclass : forallb token_char (String.list_ascii_of_string tok) = true
                   <-> forall c,
                         In c (String.list_ascii_of_string tok) ->
                         65 <= nat_of_ascii c <= 90
                         \/ 97 <= nat_of_ascii c <= 122
                         \/ 48 <= nat_of_ascii c <= 57
                         \/ c = "_"%char \/ c = "-"%char).
  { rewrite forallb_forall. split; intros H c Hc.
    - apply token_char_spec. now apply H.
    - apply token_char_spec. now apply H. }
  rewrite <- Hclass. unfold match_token_url. split.
  - destruct (strip_prefix "/api/token/" u) as [t|] eqn:E; [|discriminate].
    apply strip_prefix_spec in E.
    destruct (String.eqb_spec t "") as [->|Hne]; [simpl; discriminate|].
    simpl.
    destruct (forallb token_char (String.list_ascii_of_string t)) eqn:Hc;
      [|discriminate].
    intros [= <-]. auto.
  - intros [-> [Hne Hc]].
    rewrite (proj2 (strip_prefix_spec "/api/token/" _ tok) eq_refl).
    destruct (String.eqb_spec tok "") as [->|_]; [now destruct Hne|].
    simpl. now rewrite Hc.
Qed.

(** C10: [GET /api/shortable] answers 200 with the distinct tokens of the
    unlock events that have [shortable] true: no token twice, a token is
    listed exactly when one of its events is shortable, and so never when all
    its events have [shortable] false. *)
Theorem api_shortable_tokens :
  exists tokens : list string,
    api_shortable = {| statusCode := 200; body := BodyTokens tokens |}
    /\ NoDup tokens
    /\ (forall t : string,
          t ∈ tokens
          <-> exists u, u ∈ unlocks /\ u_token u = t /\ u_shortable u = true)
    /\ (forall t : string,
          (forall u, u ∈ unlocks -> u_token u = t -> u_shortable u = false) ->
          t ∉ tokens).
Proof.
  eexists. split; [reflexivity|].
  assert (Hiff : forall t : string,
            t ∈ array_from_set (map u_token (List.filter u_shortable unlocks))
            <-> exists u, u ∈ unlocks /\ u_token u = t /\ u_shortable u = true).
  { intros t. unfold array_from_set.
    rewrite fold_set_add_elem, elem_of_nil, list_elem_of_In, in_map_iff.
    split.
    - intros [[]|[u [Hu Hin]]]. apply filter_In in Hin as [Hin Hs].
      exists u. rewrite list_elem_of_In. auto.
    - intros [u [Hin [Hu Hs]]]. right. exists u. split; [assumption|].
      apply filter_In. rewrite <- list_elem_of_In. auto. }
  split; [|split].
  - apply fold_set_add_NoDup. constructor.
  - exact Hiff.
  - intros t Hall Hin. apply Hiff in Hin as [u [Hu [Ht Hs]]].
    rewrite (Hall u Hu Ht) in Hs. discriminate.
Qed.

(** X10: [Array.from(new Set(xs))] keeps the first occurrence of every
    element, in order: appending an element to the input appends it to the
    output if it is new and changes nothing otherwise.  So an input without
    repetition comes out unchanged, and applying it twice is applying it
    once. *)
Theorem array_from_set_first_occurrence :
  (forall (xs : list string) (y : string),
     array_from_set (xs ++ [y])
     = if bool_decide (y ∈ xs) then array_from_set xs
       else array_from_set xs ++ [y])
  /\ (forall xs : list string, NoDup xs -> array_from_set xs = xs)
  /\ (forall xs : list string,
        array_from_set (array_from_set xs) = array_from_set xs).
Proof.
  assert (Hid : forall xs : list string, NoDup xs -> array_from_set xs = xs).
  { induction xs as [|y xs IH] using rev_ind; intros Hnd; [reflexivity|].
    apply NoDup_app in Hnd as [Hxs [Hy _]].
    rewrite array_from_set_snoc, IH by assumption.
    rewrite bool_decide_eq_false_2; [reflexivity|].
    intros Hin. apply (Hy y Hin). apply list_elem_of_here. }
  split; [apply array_from_set_snoc|]. split; [exact Hid|].
  intros xs. apply Hid. unfold array_from_set.
  apply fold_set_add_NoDup. constructor.
Qed.

(** X11: the token route and the shortable route agree: the detail of a
    token says [shortable: true] exactly when [GET /api/shortable] lists the
    token. *)
Theorem api_token_shortable_iff (tok : string) :
  td_shortable (api_token tok) = true
  <-> exists tokens,
        body api_shortable = BodyTokens tokens /\ tok ∈ tokens.
Proof.
  unfold api_token, api_shortable. cbn [td_shortable body].
  rewrite existsb_filter_shortable. split.
  - intros [u [Hin [Ht Hs]]]. eexists. split; [reflexivity|].
    apply (proj2 (array_from_set_elem _ _)).
    rewrite list_elem_of_In, in_map_iff.
    exists u. split; [exact Ht|]. apply filter_In.
    rewrite <- list_elem_of_In. auto.
  - intros [tokens [[= <-] Hin]].
    apply (proj1 (array_from_set_elem _ _)) in Hin.
    rewrite list_elem_of_In, in_map_iff in Hin.
    destruct Hin as [u [Ht Hin]]. apply filter_In in Hin as [Hin Hs].
    exists u. rewrite list_elem_of_In. auto.
Qed.

(** X12: the events in the detail of a token are the events [backtest]
    replays for it, all of that token; when the detail shows no unlock or an
    empty price series, [backtest] of the token returns
    [{trades: 0, winRate: 0, avgRoi: 0}] for all offsets. *)
Theorem api_token_backtest (tok : string) :
  td_unlocks (api_token tok) = events_of (VStr tok)
  /\ Forall (fun u => u_token u = tok) (td_unlocks (api_token tok))
  /\ (td_unlocks (api_token tok) = []
      \/ td_priceSeries (api_token tok) = FoundSeries [] ->
      forall hoursBefore hoursAfter,
        backtest (VStr tok) hoursBefore hoursAfter = inr no_trades).
Proof.
  split; [reflexivity|]. split.
  - apply Forall_forall. intros u Hu. apply list_elem_of_In in Hu.
    cbn [api_token td_unlocks] in Hu. apply filter_In in Hu as [_ Ht].
    now apply String.eqb_eq.
  - intros [He | Hs] hb ha; unfold backtest.
    + change (events_of (VStr tok)) with (td_unlocks (api_token tok)).
      now rewrite He.
    + unfold backtest_totals. rewrite forEach_backtest_step_uncovered;
        [reflexivity|].
      apply forallb_forall. intros ev _. unfold uncovered.
      now rewrite !getPrice_no_series.
Qed.

(** X13: the handler answers with the detail of a token exactly for a [GET]
    of [/api/token/] followed by a non-empty name made of the letters [A] to
    [Z] and [a] to [z], the digits, [_] and [-]; the detail is that of the
    name.  For a name with a dot, a slash or a question mark no reply
    carries a token detail. *)
Theorem server_token_route (req : Request) (net : Transport)
    (d : TokenDetail) :
  (server req net
   = Some {| r_status := 200;
             r_headers :=
               [ ("Access-Control-Allow-Origin", "*");
                 ("Access-Control-Allow-Methods", "GET, POST, OPTIONS");
                 ("Access-Control-Allow-Headers", "Content-Type");
                 ("Content-Type", "application/json") ];
             r_payload := PDetail d |}
   <-> method req = "GET"%string
       /\ exists tok,
            url req = ("/api/token/" ++ tok)%string
            /\ tok <> ""%string
            /\ (forall c,
                  In c (String.list_ascii_of_string tok) ->
                  65 <= nat_of_ascii c <= 90 \/ 97 <= nat_of_ascii c <= 122
                  \/ 48 <= nat_of_ascii c <= 57
                  \/ c = "_"%char \/ c = "-"%char)
            /\ d = api_token tok)
  /\ (forall tok,
        url req = ("/api/token/" ++ tok)%string ->
        In "."%char (String.list_ascii_of_string tok)
        \/ In "/"%char (String.list_ascii_of_string tok)
        \/ In "?"%char (String.list_ascii_of_string tok) ->
        forall r d', server req net = Some r -> r_payload r <> PDetail d').
Proof.
  assert (Hpayload : forall r d0,
            server req net = Some r -> r_payload r = PDetail d0 ->
            method req = "GET"%string
            /\ exists tok,
                 match_token_url (url req) = Some tok
                 /\ d0 = api_token tok).
  { intros r d0. unfold server.
    destruct (String.eqb (method req) "OPTIONS");
      [intros [= <-]; discriminate|].
    destruct (String.eqb (url req) "/api/unlocks"
              && String.eqb (method req) "GET").
    { destruct (api_unlocks net); [intros [= <-]|]; discriminate. }
    destruct (String.eqb (url req) "/api/shortable"
              && String.eqb (method req) "GET");
      [intros [= <-]; discriminate|].
    cbv zeta.
    destruct (match_token_url (url req)) as [tok|] eqn:Em;
      destruct (String.eqb_spec (method req) "GET") as [Hg|Hg];
      intros [= <-];
      try (unfold backtest_or_static, serve_static, json_reply;
           repeat match goal with
                  | |- context [if ?b then _ else _] => destruct b
                  | |- context [match ?x with _ => _ end] => destruct x
                  end; discriminate).
    cbn. intros [= <-]. split; [exact Hg|]. eauto. }
  assert (Hiff : forall d0,
            server req net = Some (json_reply 200 (PDetail d0))
            <-> method req = "GET"%string
                /\ exists tok,
                     match_token_url (url req) = Some tok
                     /\ d0 = api_token tok).
  { intros d0. split.
    - intros H. now apply (Hpayload _ d0 H).
    - unfold server. intros [Hg [tok [Em ->]]].
      pose proof (proj1 (match_token_url_spec _ _) Em) as [Hu _].
      assert (Hu1 : String.eqb (url req) "/api/unlocks" = false)
        by (apply String.eqb_neq; rewrite Hu; simpl; discriminate).
      assert (Hu2 : String.eqb (url req) "/api/shortable" = false)
        by (apply String.eqb_neq; rewrite Hu; simpl; discriminate).
      rewrite Hu1, Hu2, Hg. cbn [String.eqb Ascii.eqb Bool.eqb andb].
      cbv zeta. rewrite Em. reflexivity. }
  split.
  - change (server req net = Some (json_reply 200 (PDetail d)) <->
            method req = "GET"%string
            /\ exists tok,
                 url req = ("/api/token/" ++ tok)%string
                 /\ tok <> ""%string
                 /\ (forall c,
                       In c (String.list_ascii_of_string tok) ->
                       65 <= nat_of_ascii c <= 90
                       \/ 97 <= nat_of_ascii c <= 122
                       \/ 48 <= nat_of_ascii c <= 57
                       \/ c = "_"%char \/ c = "-"%char)
                 /\ d = api_token tok).
    rewrite Hiff. split.
    + intros [Hg [tok [Em ->]]]. split; [exact Hg|]. exists tok.
      apply match_token_url_spec in Em as [Hu [Hne Hc]]. auto.
    + intros [Hg [tok [Hu [Hne [Hc ->]]]]]. split; [exact Hg|]. exists tok.
      split; [|reflexivity]. apply match_token_url_spec. auto.
  - intros tok Hu Hbad r d' Hs Hp.
    destruct (Hpayload r d' Hs Hp) as [_ [tok' [Em _]]].
    apply match_token_url_spec in Em as [Hu' [_ Hc]].
    assert (tok' = tok).
    { apply strip_prefix_spec in Hu, Hu'. congruence. }
    subst tok'.
    destruct Hbad as [Hb | [Hb | Hb]]; apply Hc in Hb;
      change (nat_of_ascii ".") with 46 in Hb;
      change (nat_of_ascii "/") with 47 in Hb;
      change (nat_of_ascii "?") with 63 in Hb;
      destruct Hb as [Hb | [Hb | [Hb | [Hb | Hb]]]];
      solve [lia | discriminate].
Qed.


(** X15: the API routes answer their own method only.  An [OPTIONS] request
    is answered 200 with no body whatever the URL; any request that is
    neither [OPTIONS], nor [GET], nor a [POST] of [/api/backtest] (a [PUT], a
    [POST] of [/api/unlocks], ...) is looked up among the static files, and
    so is a [GET] of [/api/backtest]. *)
Theorem server_method_guard (req : Request) (net : Transport) :
  (method req = "OPTIONS"%string ->
   server req net
   = Some {| r_status := 200; r_headers := cors_headers;
             r_payload := PNothing |})
  /\ (method req <> "OPTIONS"%string -> method req <> "GET"%string ->
      method req <> "POST"%string \/ url req <> "/api/backtest"%string ->
      server req net = Some (serve_static (url req)))
  /\ (method req = "GET"%string -> url req = "/api/backtest"%string ->
      server req net = Some (serve_static "/api/backtest")).
Proof.
  unfold server. split; [|split].
  - intros ->. reflexivity.
  - intros Ho Hg Hp.
    destruct (String.eqb_spec (method req) "OPTIONS"); [contradiction|].
    destruct (String.eqb_spec (method req) "GET"); [contradiction|].
    rewrite !andb_false_r. cbv zeta.
    assert (Hbs : backtest_or_static req = serve_static (url req)).
    { unfold backtest_or_static.
      destruct (String.eqb_spec (url req) "/api/backtest");
        destruct (String.eqb_spec (method req) "POST");
        try reflexivity. tauto. }
    rewrite Hbs. now destruct (match_token_url (url req)).
  - unfold backtest_or_static. intros -> ->. reflexivity.
Qed.

End Routes.

(** * Examples

    The theorems above applied to the concrete run-time library and
    fixtures. *)

Import Sample.

(** A token named [constructor], with an unlock and no price series:
    [getPrice] throws, and so the route answers 400 with the message of the
    exception. *)
Lemma getPrice_inherited_name_witness :
  getPrice (G := Inherited.globals) (VStr "constructor") 0
  = inl (TypeError
           "Cannot read properties of undefined (reading 'timestamp')")
  /\ api_backtest (G := Inherited.globals) [body_constructor]
     = {| statusCode := 400;
          body := BodyError
                    "Cannot read properties of undefined (reading 'timestamp')"
       |}.
Proof.
  split.
  - rewrite (getPrice_inherited_name (G := Inherited.globals) "constructor" 0
               0) by (vm_compute; reflexivity).
    vm_compute. reflexivity.
  - vm_compute. reflexivity.
Defined.

(** [getPrice] on the scenario's series: an unknown token, an instant before
    the first sample, an instant between the two samples, and the instant of
    the last sample. *)
Lemma getPrice_as_of_witness :
  getPrice (G := Scenario.globals) (VStr "QQQ") 0 = inr None
  /\ getPrice (G := Scenario.globals) (VStr "AAA") 0 = inr None
  /\ getPrice (G := Scenario.globals) (VStr "AAA")
       (Date_parse "2024-01-01T00:30:00Z") = inr (Some 10%float)
  /\ getPrice (G := Scenario.globals) (VStr "AAA") (Date_parse Scenario.t1)
     = inr (Some 12%float).
Proof.
  split; [|split; [|split]].
  - apply (proj1 (getPrice_as_of (G := Scenario.globals) (VStr "QQQ") "QQQ" 0
                    eq_refl));
      vm_compute; reflexivity.
  - destruct (getPrice_as_of (G := Scenario.globals) (VStr "AAA") "AAA" 0
                eq_refl) as [_ H].
    destruct (H Scenario.series) as [_ [_ [_ [_ [Hbefore _]]]]];
      [vm_compute; reflexivity|].
    apply (Hbefore eq_refl _ _ eq_refl). vm_compute. reflexivity.
  - destruct (getPrice_as_of (G := Scenario.globals) (VStr "AAA") "AAA"
                (Date_parse "2024-01-01T00:30:00Z") eq_refl) as [_ H].
    destruct (H Scenario.series) as [_ [Hstop _]];
      [vm_compute; reflexivity|].
    apply (Hstop [ {| p_timestamp := Scenario.t0; p_price := 10 |} ]
             {| p_timestamp := Scenario.t1; p_price := 12 |} []);
      vm_compute; reflexivity.
  - destruct (getPrice_as_of (G := Scenario.globals) (VStr "AAA") "AAA"
                (Date_parse Scenario.t1) eq_refl) as [_ H].
    destruct (H Scenario.series) as [_ [_ [_ [_ [_ Hlast]]]]];
      [vm_compute; reflexivity|].
    apply (Hlast eq_refl [ {| p_timestamp := Scenario.t0; p_price := 10 |} ]
             {| p_timestamp := Scenario.t1; p_price := 12 |});
      vm_compute; reflexivity.
Defined.

(** One step of the scenario's backtest: a trade when buying one hour before
    the unlock, nothing when buying two hours before (no price yet). *)
Lemma backtest_step_spec_witness :
  let zero := {| t_trades := 0; t_wins := 0; t_totalRoi := 0 |} in
  (exists acc',
     backtest_step (G := Scenario.globals) (VStr "AAA") 1 0 zero
       Scenario.event = inr acc'
     /\ t_trades acc' = (0 + 1)%float
     /\ t_totalRoi acc' = (0 + (12 - 10) / 10)%float
     /\ t_wins acc' = (0 + 1)%float)
  /\ backtest_step (G := Scenario.globals) (VStr "AAA") 2 0 zero
       Scenario.event = inr zero.
Proof.
  intros zero. split.
  - destruct (backtest_step_spec (G := Scenario.globals) (VStr "AAA") 1 0
                zero Scenario.event) as [_ [H _]].
    destruct (H 10%float 12%float) as [acc' [Hs [Ht [Hr [Hw _]]]]];
      [vm_compute; reflexivity | vm_compute; reflexivity |].
    exists acc'. split; [exact Hs|]. split; [exact Ht|]. split; [exact Hr|].
    apply Hw. vm_compute. reflexivity.
  - apply (proj1 (backtest_step_spec (G := Scenario.globals) (VStr "AAA") 2 0
                    zero Scenario.event)).
    left. vm_compute. reflexivity.
Defined.

(** No trade: a token without unlock events, and the scenario with a buy two
    hours before the unlock. *)
Lemma backtest_no_trades_witness :
  backtest (G := Scenario.globals) (VStr "QQQ") 1 0 = inr no_trades
  /\ backtest (G := Scenario.globals) (VStr "AAA") 2 0 = inr no_trades.
Proof.
  split.
  - apply (proj1 (backtest_no_trades (G := Scenario.globals) (VStr "QQQ") 1 0)).
    vm_compute. reflexivity.
  - apply (proj1 (proj2 (backtest_no_trades (G := Scenario.globals)
                           (VStr "AAA") 2 0))).
    vm_compute. reflexivity.
Defined.

(** The scenario with [t0] = 2024-01-01T00:00:00Z. *)
Lemma backtest_scenario_witness :
  backtest (G := Scenario.globals) (VStr "AAA") 1 0
  = inr {| trades := 1; winRate := 1; avgRoi := 0.2 |}.
Proof.
  apply (backtest_scenario (G := Scenario.globals) Scenario.t0 Scenario.t1
           Scenario.event); vm_compute; reflexivity.
Defined.

(** A first price of 0: the trade is counted and [avgRoi] is [Infinity]. *)
Lemma backtest_zero_buy_price_witness :
  backtest (G := Fixtures.globals) (VStr "ZZZ") 1 0
  = inr {| trades := 1; winRate := 1; avgRoi := infinity |}
  /\ exists result,
       backtest (G := Fixtures.globals) (VStr "ZZZ") 1 0 = inr result
       /\ PrimFloat.is_finite (avgRoi result) = false.
Proof.
  split; [vm_compute; reflexivity|].
  destruct (backtest_zero_buy_price (G := Fixtures.globals) (VStr "ZZZ") 1 0
              [] [] (Fixtures.unlock "ZZZ" Fixtures.t1 false) 0 5)
    as [acc [acc' [total [result [_ [_ [_ [Hr [_ [_ [_ [_ [_ Hfin]]]]]]]]]]]]];
    try (vm_compute; reflexivity).
  exists result. split; [exact Hr|]. apply Hfin.
  assert (He : result = {| trades := 1; winRate := 1; avgRoi := infinity |}).
  { vm_compute in Hr. now injection Hr as <-. }
  rewrite He. vm_compute. reflexivity.
Defined.

(** The provider response of the specification's scenario, received in two
    chunks, and a record without an amount. *)
Lemma map_event_spec_witness :
  (exists events,
     fetchRealUnlocks (G := Fixtures.globals)
       (NetResponse [provider_body; ""]) = Resolved (Some events)
     /\ Forall2
          (fun r e =>
             exists day,
               ToString (own_property r "date") = inr day
               /\ e = {| m_token := own_property r "coin";
                         m_timestamp := (day ++ "T00:00:00Z")%string;
                         m_amountUsd :=
                           or_else (own_property r "amount") (VNum 0);
                         m_shortable := false |})
          [[("coin", VStr "BBB"); ("date", VStr "2024-01-01");
            ("amount", VNum 5000)]]
          events)
  /\ map_event (VObj [("coin", VStr "BBB"); ("date", VStr "2024-01-01")])
     = inr {| m_token := VStr "BBB"; m_timestamp := "2024-01-01T00:00:00Z";
              m_amountUsd := VNum 0; m_shortable := false |}.
Proof.
  split.
  - destruct (map_event_spec (G := Fixtures.globals) []) as [_ [_ [H _]]].
    apply (H "secret"%string [provider_body; ""%string]
             [[("coin", VStr "BBB"); ("date", VStr "2024-01-01");
               ("amount", VNum 5000)]]);
      try discriminate; try (vm_compute; reflexivity).
    repeat constructor.
  - destruct (map_event_spec (G := Fixtures.globals)
                [("coin", VStr "BBB"); ("date", VStr "2024-01-01")])
      as [_ [H _]].
    destruct (H "BBB"%string "2024-01-01"%string eq_refl eq_refl)
      as [Hmissing _].
    apply Hmissing. reflexivity.
Defined.

(** [null] when no key is configured, for a failed request, for a body that
    is not JSON and for a record whose date is an object with a [toString]
    property; an empty sequence for the body [{}]. *)
Lemma fetchRealUnlocks_absent_witness :
  fetchRealUnlocks (G := Scenario.globals) (NetResponse [provider_body])
  = Resolved None
  /\ fetchRealUnlocks (G := Fixtures.globals) (NetError "ECONNRESET")
     = Resolved None
  /\ fetchRealUnlocks (G := Fixtures.globals) (NetResponse ["<html>"])
     = Resolved None
  /\ fetchRealUnlocks (G := Fixtures.globals)
       (NetResponse [provider_bad_date_body]) = Resolved None
  /\ fetchRealUnlocks (G := Fixtures.globals) (NetResponse ["{}"])
     = Resolved (Some []).
Proof.
  split; [|split; [|split; [|split]]].
  - apply (proj1 (fetchRealUnlocks_absent (G := Scenario.globals)
                    (NetResponse [provider_body]))).
    left. reflexivity.
  - destruct (fetchRealUnlocks_absent (G := Fixtures.globals)
                (NetError "ECONNRESET")) as [_ H].
    destruct (H "secret"%string) as [_ [Hiff _]];
      [reflexivity | discriminate | vm_compute; reflexivity |].
    apply Hiff. left. eexists. reflexivity.
  - destruct (fetchRealUnlocks_absent (G := Fixtures.globals)
                (NetResponse ["<html>"%string])) as [_ H].
    destruct (H "secret"%string) as [_ [Hiff _]];
      [reflexivity | discriminate | vm_compute; reflexivity |].
    apply Hiff. right. eexists. split; [reflexivity|]. left.
    eexists. vm_compute. reflexivity.
  - destruct (fetchRealUnlocks_absent (G := Fixtures.globals)
                (NetResponse [provider_bad_date_body])) as [_ H].
    destruct (H "secret"%string) as [_ [Hiff _]];
      [reflexivity | discriminate | vm_compute; reflexivity |].
    apply Hiff. right. eexists. split; [reflexivity|]. right.
    exists provider_bad_date_value. split; [vm_compute; reflexivity|].
    right. right. eexists. split; [reflexivity|]. right.
    eexists. eexists. split; [reflexivity|]. split; [now left|].
    right. right. reflexivity.
  - destruct (fetchRealUnlocks_absent (G := Fixtures.globals)
                (NetResponse ["{}"%string])) as [_ H].
    destruct (H "secret"%string) as [_ [_ Hgood]];
      [reflexivity | discriminate | vm_compute; reflexivity |].
    destruct (Hgood ["{}"%string] (VObj [])) as [_ Hempty];
      [reflexivity | vm_compute; reflexivity | |].
    + intros [Hn | [Hn | [props [Heq [[Ht _] | [data [ev [Hd _]]]]]]]];
        try discriminate; injection Heq as <-; discriminate.
    + apply Hempty. intros props data [= <-]. discriminate.
Defined.

(** Against C7 as the specification states it: a body that is not of the
    provider's shape does not always give [null], and an error can reach the
    caller.  The body [{}] has no [data] array and gives the empty sequence;
    and with a key that holds a line feed [https.request] throws and the
    promise is rejected. *)
Lemma fetchRealUnlocks_absent_counterexample :
  (JSON_parse "{}" = inr (VObj [])
   /\ provider_shaped (VObj []) = false
   /\ fetchRealUnlocks (G := Fixtures.globals) (NetResponse ["{}"])
      = Resolved (Some [])
   /\ fetchRealUnlocks (G := Fixtures.globals) (NetResponse ["{}"])
      <> Resolved None)
  /\ fetchRealUnlocks (G := Inherited.globals) (NetResponse [provider_body])
     = Rejected
         (TypeError
            ("Invalid character in header content [" ++ q "Authorization"
             ++ "]")).
Proof.
  split; [split; [|split; [|split]]|]; try (vm_compute; reflexivity).
  vm_compute. discriminate.
Qed.

(** [GET /api/unlocks] when the request fails: the local events. *)
Lemma api_unlocks_fallback_witness :
  api_unlocks (G := Fixtures.globals) (NetError "ECONNRESET")
  = Some {| statusCode := 200;
            body := BodyUnlocks (unlocks (Globals := Fixtures.globals)) |}.
Proof.
  destruct (api_unlocks_fallback (G := Fixtures.globals)
              (NetError "ECONNRESET")) as [H _].
  destruct H as [result [Hr [Hnull _]]]; [eexists; reflexivity|].
  rewrite Hr, Hnull; reflexivity.
Defined.

(** [POST /api/backtest] without a token; with a token and
    [hoursBefore: "abc"]; with a token and [hoursBefore: true]. *)
Lemma api_backtest_params_witness :
  api_backtest (G := Scenario.globals) [body_no_token]
  = {| statusCode := 400; body := BodyError "Token is required" |}
  /\ api_backtest (G := Scenario.globals) [body_bad_hours]
     = {| statusCode := 200;
          body := BodyBacktest {| trades := 1; winRate := 0; avgRoi := 0 |} |}
  /\ api_backtest (G := Scenario.globals) [body_true_hours]
     = {| statusCode := 200;
          body := BodyBacktest
                    {| trades := 1; winRate := 1; avgRoi := 0.2 |} |}.
Proof.
  split; [|split].
  - destruct (api_backtest_params (G := Scenario.globals) [body_no_token])
      as [H _].
    destruct (H value_no_token) as [Hmissing _];
      [vm_compute; reflexivity | discriminate | discriminate |].
    destruct (Hmissing (or_introl eq_refl)) as [m [Hm Hmsg]].
    rewrite Hm, (Hmsg eq_refl eq_refl). reflexivity.
  - destruct (api_backtest_params (G := Scenario.globals) [body_bad_hours])
      as [H _].
    destruct (H value_bad_hours) as [_ Hpresent];
      [vm_compute; reflexivity | discriminate | discriminate |].
    destruct (Hpresent eq_refl nan nan) as [Hres [Hb _]];
      [vm_compute; reflexivity | vm_compute; reflexivity |].
    apply Hres. rewrite Hb by (right; left; reflexivity).
    vm_compute. reflexivity.
  - destruct (api_backtest_params (G := Scenario.globals) [body_true_hours])
      as [H _].
    destruct (H value_true_hours) as [_ Hpresent];
      [vm_compute; reflexivity | discriminate | discriminate |].
    destruct (Hpresent eq_refl 1%float nan) as [Hres [_ [Hb _]]];
      [vm_compute; reflexivity | vm_compute; reflexivity |].
    apply Hres. rewrite Hb by reflexivity.
    vm_compute. reflexivity.
Defined.

(** Against C9 as the specification states it: a non-numeric offset is not
    always coerced to 0.  [hoursBefore: true] is not a number and runs the
    backtest one hour before the unlock, with a result that differs from the
    result at offset 0; and an object with a [toString] property is answered
    with 400. *)
Lemma api_backtest_params_counterexample :
  (JSON_parse body_true_hours
   = inr (VObj [("token", VStr "AAA"); ("hoursBefore", VBool true)])
   /\ api_backtest (G := Scenario.globals) [body_true_hours]
      = {| statusCode := 200;
           body := BodyBacktest
                     {| trades := 1; winRate := 1; avgRoi := 0.2 |} |}
   /\ backtest (G := Scenario.globals) (VStr "AAA") 0 0
      = inr {| trades := 1; winRate := 0; avgRoi := 0 |}
   /\ winRate {| trades := 1; winRate := 1; avgRoi := 0.2 |}
      <> winRate {| trades := 1; winRate := 0; avgRoi := 0 |})
  /\ (JSON_parse body_object_hours
      = inr (VObj [("token", VStr "AAA");
                   ("hoursBefore", VObj [("toString", VNum 0)])])
      /\ api_backtest (G := Scenario.globals) [body_object_hours]
         = {| statusCode := 400;
              body := BodyError "Cannot convert object to primitive value" |}).
Proof.
  split; [split; [|split; [|split]]|split]; try (vm_compute; reflexivity).
  cbn [winRate]. intros H.
  apply (f_equal (fun x => PrimFloat.eqb x 0)) in H.
  vm_compute in H. discriminate.
Qed.

(** [GET /api/shortable] on the fixtures: [AAA] is listed, [BBB] is not. *)
Lemma api_shortable_tokens_witness :
  exists tokens,
    api_shortable (G := Fixtures.globals)
    = {| statusCode := 200; body := BodyTokens tokens |}
    /\ "AAA"%string ∈ tokens /\ "BBB"%string ∉ tokens.
Proof.
  destruct (api_shortable_tokens (G := Fixtures.globals))
    as [tokens [Heq [_ [Hiff Hnever]]]].
  exists tokens. split; [exact Heq|]. split.
  - apply Hiff. exists (Fixtures.unlock "AAA" Fixtures.t1 true).
    split; [apply list_elem_of_here | split; reflexivity].
  - apply Hnever. intros u Hu Ht. simpl in Hu.
    repeat (apply elem_of_cons in Hu as [-> | Hu];
            [first [reflexivity | discriminate Ht] |]).
    now apply elem_of_nil in Hu.
Defined.

(** ** Examples of the further properties *)

(** The price half an hour after the first sample is that of a sample of the
    series, at or before that instant. *)
Lemma getPrice_returns_sample_witness :
  exists key series p,
    ToPropertyKey (VStr "AAA") = inr key
    /\ priceSeries (Globals := Scenario.globals) !! key = Some series
    /\ p ∈ series
    /\ p_price p = 10%float
    /\ PrimFloat.leb (Date_parse (p_timestamp p))
         (Date_parse "2024-01-01T00:30:00Z") = true.
Proof.
  apply (getPrice_returns_sample (G := Scenario.globals) (VStr "AAA")
           (Date_parse "2024-01-01T00:30:00Z") 10).
  vm_compute. reflexivity.
Defined.

(** A price at the first sample, hence one an hour later. *)
Lemma getPrice_covered_iff_witness :
  exists x,
    getPrice (G := Scenario.globals) (VStr "AAA") (Date_parse Scenario.t1)
    = inr (Some x).
Proof.
  apply (proj2 (getPrice_covered_iff (G := Scenario.globals) (VStr "AAA")
                  (Date_parse Scenario.t0))).
  - exists 10%float. vm_compute. reflexivity.
  - vm_compute. reflexivity.
Defined.

(** An unlock whose timestamp is the text [soon]. *)
Lemma backtest_skips_unparseable_timestamp_witness :
  let acc := {| t_trades := 3; t_wins := 1; t_totalRoi := 0.5 |} in
  backtest_step (G := Scenario.globals) (VStr "AAA") 1 0 acc
    (Fixtures.unlock "AAA" "soon" true) = inr acc.
Proof.
  intros acc.
  destruct (backtest_skips_unparseable_timestamp (G := Scenario.globals)
              (VStr "AAA") 1 0 acc (Fixtures.unlock "AAA" "soon" true))
    as [_ [_ [_ H]]]; [vm_compute; reflexivity|].
  apply (H 0%float None). vm_compute. reflexivity.
Defined.

(** A request with a token and no offsets. *)
Lemma backtest_same_instant_never_wins_witness :
  api_backtest (G := Scenario.globals) [body_token_only]
  = {| statusCode := 200;
       body := BodyBacktest {| trades := 1; winRate := 0; avgRoi := 0 |} |}
  /\ winRate {| trades := 1; winRate := 0; avgRoi := 0 |} = 0%float.
Proof.
  destruct (backtest_same_instant_never_wins (G := Scenario.globals)
              (VStr "AAA")) as [_ [_ [H _]]].
  apply (H [body_token_only] value_token_only);
    try discriminate; vm_compute; reflexivity.
Defined.

(** The token 5, directly and through the route. *)
Lemma backtest_non_string_token_witness :
  backtest (G := Scenario.globals) (VNum 5) 1 0 = inr no_trades
  /\ api_backtest (G := Scenario.globals) [body_numeric_token]
     = {| statusCode := 200; body := BodyBacktest no_trades |}.
Proof.
  assert (Hns : forall s, VNum 5 <> VStr s) by (intros s; discriminate).
  split.
  - apply (backtest_non_string_token (G := Scenario.globals) (VNum 5) 1 0
             Hns).
  - destruct (backtest_non_string_token (G := Scenario.globals) (VNum 5) 0 0
                Hns) as [_ [_ H]].
    apply (H [body_numeric_token] value_numeric_token);
      try discriminate; vm_compute; reflexivity.
Defined.

(** A token with a series is answered 200; the token [constructor], with an
    unlock and no series, is answered 400. *)
Lemma api_backtest_status_witness :
  statusCode (api_backtest (G := Scenario.globals) [body_token_only]) = 200%Z
  /\ statusCode (api_backtest (G := Inherited.globals) [body_constructor])
     <> 200%Z.
Proof.
  split.
  - apply (proj2 (proj2 (api_backtest_status (G := Scenario.globals)
                           [body_token_only]))).
    exists value_token_only.
    split; [vm_compute; reflexivity|]. split; [discriminate|].
    split; [discriminate|]. split; [reflexivity|]. split; [reflexivity|].
    split; [reflexivity|].
    intros [_ [name [n [Hn [Hs _]]]]].
    injection Hn as <-. vm_compute in Hs. discriminate.
  - intros H200.
    apply (proj1 (proj2 (api_backtest_status (G := Inherited.globals)
                           [body_constructor]))) in H200
      as [params [Hp [_ [_ [_ [_ [_ Hno]]]]]]].
    apply Hno. vm_compute in Hp. injection Hp as <-.
    split; [vm_compute; discriminate|].
    exists "constructor"%string, 0. repeat split; vm_compute; reflexivity.
Defined.

(** The provider response of the scenario. *)
Lemma fetchRealUnlocks_events_shape_witness :
  Forall (fun e =>
            m_shortable e = false
            /\ (exists d, m_timestamp e = (d ++ "T00:00:00Z")%string)
            /\ (ToBoolean (m_amountUsd e) = true \/ m_amountUsd e = VNum 0))
    [ {| m_token := VStr "BBB"; m_timestamp := "2024-01-01T00:00:00Z";
         m_amountUsd := VNum 5000; m_shortable := false |} ].
Proof.
  apply (fetchRealUnlocks_events_shape (G := Fixtures.globals)
           (NetResponse [provider_body])).
  vm_compute. reflexivity.
Defined.

(** The same response through [GET /api/unlocks]; and no answer when the key
    holds a line feed, or when the provider stays silent. *)
Lemma api_unlocks_remote_iff_witness :
  api_unlocks (G := Fixtures.globals) (NetResponse [provider_body])
  = Some {| statusCode := 200;
            body := BodyMapped
                      [ {| m_token := VStr "BBB";
                           m_timestamp := "2024-01-01T00:00:00Z";
                           m_amountUsd := VNum 5000;
                           m_shortable := false |} ] |}
  /\ api_unlocks (G := Inherited.globals) (NetResponse [provider_body]) = None
  /\ api_unlocks (G := Fixtures.globals) NetHang = None.
Proof.
  split; [|split].
  - apply (proj2 (proj2 (proj2 (api_unlocks_remote_iff (G := Fixtures.globals)
                                  (NetResponse [provider_body]))) _)).
    exists "secret"%string, [provider_body],
           [("data", VArr [VObj [("coin", VStr "BBB");
                                 ("date", VStr "2024-01-01");
                                 ("amount", VNum 5000)]])],
           [VObj [("coin", VStr "BBB"); ("date", VStr "2024-01-01");
                  ("amount", VNum 5000)]].
    split; [reflexivity|]. split; [discriminate|].
    split; [vm_compute; reflexivity|]. split; [reflexivity|].
    split; [vm_compute; reflexivity|]. split; [reflexivity|].
    split; [discriminate|]. split.
    + repeat constructor; discriminate.
    + constructor; [|constructor].
      exists "2024-01-01"%string. split; reflexivity.
  - apply (proj2 (proj1 (proj2 (api_unlocks_remote_iff
                                  (G := Inherited.globals)
                                  (NetResponse [provider_body]))))).
    eexists. split; [reflexivity|]. split; [discriminate|].
    left. vm_compute. discriminate.
  - apply (proj2 (proj1 (proj2 (api_unlocks_remote_iff
                                  (G := Fixtures.globals) NetHang)))).
    exists "secret"%string. split; [reflexivity|]. split; [discriminate|].
    now right.
Defined.

(** [CCC] has an unlock and no price series. *)
Lemma api_token_backtest_witness :
  backtest (G := Fixtures.globals) (VStr "CCC") 1 0 = inr no_trades.
Proof.
  apply (proj2 (proj2 (api_token_backtest (G := Fixtures.globals) "CCC"))).
  right. vm_compute. reflexivity.
Defined.

(** [GET /api/token/AAA] is a token request; [GET /api/token/a.b] is not. *)
Lemma server_token_route_witness :
  server (G := Fixtures.globals) (node := Disk.node)
    {| method := "GET"; url := "/api/token/AAA"; req_chunks := [] |}
    (NetError "unused")
  = Some {| r_status := 200;
            r_headers :=
              [ ("Access-Control-Allow-Origin", "*");
                ("Access-Control-Allow-Methods", "GET, POST, OPTIONS");
                ("Access-Control-Allow-Headers", "Content-Type");
                ("Content-Type", "application/json") ];
            r_payload := PDetail (api_token (G := Fixtures.globals) "AAA") |}
  /\ forall r d,
       server (G := Fixtures.globals) (node := Disk.node)
         {| method := "GET"; url := "/api/token/a.b"; req_chunks := [] |}
         (NetError "unused") = Some r ->
       r_payload r <> PDetail d.
Proof.
  split.
  - apply (proj2 (proj1 (server_token_route (G := Fixtures.globals)
                           (node := Disk.node) _ _ _))).
    split; [reflexivity|]. exists "AAA"%string.
    split; [reflexivity|]. split; [discriminate|]. split; [|reflexivity].
    intros c Hc. left.
    repeat (destruct Hc as [<- | Hc]; [vm_compute; lia|]).
    destruct Hc.
  - apply (proj2 (server_token_route (G := Fixtures.globals)
                    (node := Disk.node)
                    {| method := "GET"; url := "/api/token/a.b";
                       req_chunks := [] |}
                    (NetError "unused")
                    (api_token (G := Fixtures.globals) "a.b"))
             "a.b"%string eq_refl).
    left. right. left. reflexivity.
Defined.


(** [PUT /api/unlocks] and [GET /api/backtest]: no such files. *)
Lemma server_method_guard_witness :
  server (G := Fixtures.globals) (node := Disk.node)
    {| method := "PUT"; url := "/api/unlocks"; req_chunks := [] |}
    (NetError "unused")
  = Some {| r_status := 404; r_headers := cors_headers;
            r_payload := PText "Not found" |}
  /\ server (G := Fixtures.globals) (node := Disk.node)
       {| method := "GET"; url := "/api/backtest"; req_chunks := [] |}
       (NetError "unused")
     = Some {| r_status := 404; r_headers := cors_headers;
               r_payload := PText "Not found" |}.
Proof.
  split.
  - destruct (server_method_guard (G := Fixtures.globals)
                (node := Disk.node)
                {| method := "PUT"; url := "/api/unlocks"; req_chunks := [] |}
                (NetError "unused")) as [_ [H _]].
    rewrite H; [reflexivity | discriminate | discriminate |].
    left. discriminate.
  - destruct (server_method_guard (G := Fixtures.globals)
                (node := Disk.node)
                {| method := "GET"; url := "/api/backtest"; req_chunks := [] |}
                (NetError "unused")) as [_ [_ H]].
    rewrite H; reflexivity.
Defined.
